(** * mern-blog: the Express API server (api/index.js) and its two Mongoose
    models (api/models/User.js, api/models/Post.js)

    The server is a set of route handlers over two MongoDB collections.
    Every handler is embedded as a function from the request, the values the
    runtime supplies during the request (clock, generated ObjectId, bcrypt
    salt) and the state of the world before the request, to the world after
    it and the response sent.  The world is the [users] collection, the
    [posts] collection and the trace of [fs.renameSync] calls.

    A request is taken as Express hands it to the route callback: the body
    parsed, the cookies parsed by cookie-parser, and, on the two routes that
    go through [uploadMiddleware.single("file")], the upload already stored
    by multer and described by [req.file].

    jsonwebtoken, bcrypt and the ObjectId cast of Mongoose are libraries the
    server calls, not code of the repository; they are interfaces (type
    classes) here, with the part of their contract that is used stated as
    laws.  A small instance of each is built later in the file so that every
    handler can be run on concrete requests. *)

From Stdlib Require Import String Ascii List ZArith Bool Lia Permutation Sorted.
Import ListNotations.

Local Open Scope string_scope.
Local Open Scope list_scope.

(** ** Values *)

(** What a callback [(err, value)] or a rejected promise carries. *)
Inductive result (A E : Type) : Type :=
| Ok (a : A)
| Err (e : E).
Arguments Ok {A E} a.
Arguments Err {A E} e.

(** The JSON documents passed to [res.json]. *)
#[warnings="-register-all"]
Inductive Json : Type :=
| JNull
| JString (s : string)
| JNumber (z : Z)
| JObject (fields : list (string * Json))
| JArray (items : list Json).

(** A MongoDB ObjectId, kept as the hexadecimal text [toString] prints. *)
Record ObjectId : Type := Oid { toString : string }.

Definition ObjectId_eqb (a b : ObjectId) : bool :=
  String.eqb (toString a) (toString b).

(** The payload given to [jwt.sign]:
    [{ userId: userDoc._id, userName: userDoc.userName }].  In the token the
    ObjectId is JSON, that is its hexadecimal text. *)
Record Claim : Type := mkClaim { userId : string; userName : string }.

(** What [jwt.verify] hands to its callback as [info]: the claim and the
    [iat] timestamp that [jwt.sign] adds when no option turns it off. *)
Record Info : Type := mkInfo { claim : Claim; iat : Z }.

(** ** Libraries *)

(** jsonwebtoken.  [jwt_sign payload secret now] is
    [jwt.sign(payload, secret, {}, callback)] at clock [now] (seconds), and
    [jwt_verify token secret] is [jwt.verify(token, secret, callback)]; both
    report through the callback, never by throwing.  The server sets no
    expiry, so a token that was signed verifies whenever it is presented.
    The two laws are what the routes rely on of the library; they are not
    taken for granted of the codec of the specification, [TokenCodec]
    below, of which they are proved ([verify_issue], [verify_empty]) before
    [codec] makes it an instance. *)
Class JsonWebToken : Type := {
  jwt_sign : Claim -> string -> Z -> result string string;
  jwt_verify : string -> string -> result Info string;
  jwt_verify_sign : forall c k t tok,
    jwt_sign c k t = Ok tok -> jwt_verify tok k = Ok (mkInfo c t);
  jwt_verify_empty : forall k, exists e, jwt_verify "" k = Err e
}.

(** bcrypt: [bcrypt_hash password salt] and [bcrypt_compare password hash]. *)
Class Bcrypt : Type := {
  bcrypt_hash : string -> string -> string;
  bcrypt_compare : string -> string -> bool
}.

(** What Mongoose does with a value it is handed.  [castObjectId] is the
    cast of a string where the schema or [findById] expects an ObjectId and
    [castString] the cast of a JSON value on a [String] path, [None] being a
    CastError; a string is cast to itself.  [filters value] is whether
    [value] can stand in a filter [{ path: value }] on a [String] path (an
    operator object as well as a string), a value that cannot being a
    CastError, and [matches value s] is whether a stored string [s]
    satisfies that filter; a string is matched by equality. *)
Class MongooseCast : Type := {
  castObjectId : string -> option ObjectId;
  castString : Json -> option string;
  castString_string : forall s, castString (JString s) = Some s;
  filters : Json -> bool;
  filters_string : forall n, filters (JString n) = true;
  matches : Json -> string -> bool;
  matches_string : forall n s, matches (JString n) s = String.eqb s n
}.

(** A value assigned to a [String] path: [undefined] and [null] are kept
    without a cast, anything else is cast. *)
Definition cast_path {MGC : MongooseCast} (v : option Json)
    : result (option string) unit :=
  match v with
  | None => Ok None
  | Some JNull => Ok None
  | Some j =>
      match castString j with
      | Some s => Ok (Some s)
      | None => Err tt
      end
  end.

(** ** JavaScript string operations used by the upload code *)

Module Js.

(** [s.split(sep)] for a one-character separator. *)
Fixpoint split (sep : ascii) (s : string) : list string :=
  match s with
  | EmptyString => [""]
  | String c r =>
      if Ascii.eqb c sep then "" :: split sep r
      else match split sep r with
           | [] => [String c ""]
           | h :: t => String c h :: t
           end
  end.

(** [s.replace(pat, rep)] with a string pattern: the first occurrence only. *)
Fixpoint replace (pat rep s : string) : string :=
  if String.prefix pat s
  then rep ++ substring (String.length pat) (String.length s - String.length pat) s
  else match s with
       | EmptyString => EmptyString
       | String c r => String c (replace pat rep r)
       end.

(** [parts.join(sep)], the inverse against which [split] is stated. *)
Fixpoint join (sep : ascii) (parts : list string) : string :=
  match parts with
  | [] => ""
  | [p] => p
  | p :: rest => p ++ String sep (join sep rest)
  end.

(** [s.includes(c)] for a character. *)
Fixpoint includes (c : ascii) (s : string) : bool :=
  match s with
  | EmptyString => false
  | String d r => Ascii.eqb d c || includes c r
  end.

(** [!value] on a value that is [undefined] or a string. *)
Definition falsy (v : option string) : bool :=
  match v with
  | None => true
  | Some s => String.eqb s ""
  end.

(** The value a test [if (!value)] lets through. *)
Definition truthy (v : option string) : option string :=
  if falsy v then None else v.

End Js.

(** ** models/User.js *)

Module User.

(** [userSchema]: [userName] and [password], both required strings;
    [userName] carries a unique index.  ([min] is a validator of numbers and
    dates; on a string path it checks nothing.) *)
Record doc : Type := mk {
  _id : ObjectId;
  userName : string;
  password : string
}.

Inductive error : Type :=
| ValidationError
| DuplicateKey.

(** [User.findOne({ userName })], [userName] being whatever JSON value the
    body holds; the query is rejected when the value cannot be cast. *)
Definition findOne {MGC : MongooseCast} (name : option Json) (coll : list doc)
    : result (option doc) unit :=
  match name with
  | None => Ok None
  | Some v =>
      if filters v then Ok (find (fun u => matches v (userName u)) coll)
      else Err tt
  end.

Definition findById (id : ObjectId) (coll : list doc) : option doc :=
  find (fun u => ObjectId_eqb (_id u) id) coll.

(** [User.create({ userName, password })] with [id] the ObjectId generated
    for the document.  [required] rejects a missing or empty string; the
    insert is refused when the unique index on [userName] (or on [_id])
    already holds the key. *)
Definition create (id : ObjectId) (name : option string) (pw : string)
    (coll : list doc) : result (doc * list doc) error :=
  match name with
  | None => Err ValidationError
  | Some n =>
      if String.eqb n "" || String.eqb pw "" then Err ValidationError
      else if existsb (fun u => String.eqb (userName u) n) coll then Err DuplicateKey
      else if existsb (fun u => ObjectId_eqb (_id u) id) coll then Err DuplicateKey
      else let u := mk id n pw in Ok (u, coll ++ [u])
  end.

End User.

(** ** models/Post.js *)

Module Post.

(** [PostSchema] with [{ timestamps: true }].  No field is required, so each
    may be absent; [cover] is [null] ([None]) on a post created without a
    file.  Dates are milliseconds. *)
Record doc : Type := mk {
  _id : ObjectId;
  title : option string;
  summary : option string;
  content : option string;
  file : option string;
  cover : option string;
  author : option ObjectId;
  createdAt : Z;
  updatedAt : Z
}.

Inductive error : Type :=
| CastError
| DuplicateKey.

(** [Post.findById(id)]: the string is cast to an ObjectId first. *)
Definition findById {MGC : MongooseCast} (id : string) (coll : list doc)
    : result (option doc) error :=
  match castObjectId id with
  | None => Err CastError
  | Some oid => Ok (find (fun p => ObjectId_eqb (_id p) oid) coll)
  end.

(** [Post.create({ title, summary, content, cover, author })]: [author] is
    the string [info.userId], cast to an ObjectId by the schema. *)
Definition create {MGC : MongooseCast} (id : ObjectId) (now : Z)
    (t s c : option string) (cov : option string) (auth : string)
    (coll : list doc) : result (doc * list doc) error :=
  match castObjectId auth with
  | None => Err CastError
  | Some a =>
      if existsb (fun p => ObjectId_eqb (_id p) id) coll then Err DuplicateKey
      else let p := mk id t s c None cov (Some a) now now in Ok (p, coll ++ [p])
  end.

Definition option_string_eqb (a b : option string) : bool :=
  match a, b with
  | None, None => true
  | Some x, Some y => String.eqb x y
  | _, _ => false
  end.

(** The paths the route assigns before [save]; [isModified] is what
    the timestamps hook of Mongoose asks before it touches [updatedAt]. *)
Definition isModified (old new : doc) : bool :=
  negb (option_string_eqb (title old) (title new)
        && option_string_eqb (summary old) (summary new)
        && option_string_eqb (content old) (content new)
        && option_string_eqb (cover old) (cover new)).

Fixpoint replaceOne (p : doc) (coll : list doc) : list doc :=
  match coll with
  | [] => []
  | q :: rest =>
      if ObjectId_eqb (_id q) (_id p) then p :: rest
      else q :: replaceOne p rest
  end.

(** [post.save()] on a document loaded as [old] and assigned to give [new]:
    writes the document back under its [_id] and returns what was saved. *)
Definition save (now : Z) (old new : doc) (coll : list doc) : doc * list doc :=
  let saved :=
    if isModified old new
    then mk (_id new) (title new) (summary new) (content new) (file new)
            (cover new) (author new) (createdAt new) now
    else new in
  (saved, replaceOne saved coll).

(** Insertion into a list already in [createdAt]-descending order. *)
Fixpoint insert_desc (p : doc) (l : list doc) : list doc :=
  match l with
  | [] => [p]
  | q :: rest =>
      if (createdAt q <=? createdAt p)%Z then p :: q :: rest
      else q :: insert_desc p rest
  end.

(** [.sort({ createdAt: -1 })].  Posts of equal [createdAt] stay in the
    order of the collection; MongoDB promises no order among them. *)
Definition sort_desc (l : list doc) : list doc :=
  fold_right insert_desc [] l.

(** [a] was created no earlier than [b]. *)
Definition newer (a b : doc) : Prop := (createdAt b <= createdAt a)%Z.

End Post.

(** ** Requests, responses and the world *)

(** [req.body] after [express.json()] or multer: the fields the routes
    destructure, each any JSON value or [undefined]. *)
Record Body : Type := mkBody {
  body_userName : option Json;
  body_password : option Json;
  body_title : option Json;
  body_summary : option Json;
  body_content : option Json
}.

(** [req.file] as multer leaves it. *)
Record File : Type := mkFile { originalname : string; path : string }.

Record Request : Type := mkRequest {
  body : Body;
  cookies_token : option string;   (* req.cookies.token *)
  file : option File;              (* req.file *)
  params_id : string               (* req.params.id *)
}.

(** [res.cookie(name, value, options)]; an option left out is off. *)
Record Cookie : Type := mkCookie {
  name : string;
  value : string;
  httpOnly : bool;
  sameSite : option string
}.

(** [res.status(n)], [res.cookie(...)], [res.json(...)]. *)
Record Response : Type := mkResponse {
  status : nat;
  cookie : option Cookie;
  sent : Json
}.

(** Collections and the [fs.renameSync(from, to)] calls made so far, the
    latest first. *)
Record World : Type := mkWorld {
  users : list User.doc;
  posts : list Post.doc;
  renames : list (string * string)
}.

(** What the runtime supplies while a request is served: [Date.now()], the
    ObjectId generated for a new document, [bcrypt.genSalt(10)], and what
    the file system answers to a rename. *)
Record Env : Type := mkEnv {
  now : Z;
  newObjectId : ObjectId;
  salt : string;
  renames_to : string -> string -> bool   (* whether the file system lets
                                             [from] be renamed to [to] *)
}.

(** The world after the request and the response, [None] when the handler
    ends in a rejection nothing catches and no response is sent. *)
Record Outcome : Type := mkOutcome {
  world : World;
  response : option Response
}.

Definition respond (w : World) (r : Response) : Outcome := mkOutcome w (Some r).

Definition json (j : Json) : Response := mkResponse 200 None j.
Definition status_json (code : nat) (j : Json) : Response := mkResponse code None j.
Definition error_json (msg : string) : Json := JObject [("error", JString msg)].
Definition message_json (msg : string) : Json := JObject [("message", JString msg)].

Definition info_json (i : Info) : Json :=
  JObject [("userId", JString (userId (claim i)));
           ("userName", JString (userName (claim i)));
           ("iat", JNumber (iat i))].

Definition user_json (id : ObjectId) (n : option string) : Json :=
  JObject (("id", JString (toString id))
           :: match n with Some s => [("userName", JString s)] | None => [] end).

Definition field (k : string) (v : option Json) : list (string * Json) :=
  match v with
  | Some j => [(k, j)]
  | None => []
  end.

(** [{ id: userDoc._id, userName }] with [userName] as the body has it. *)
Definition echo_json (id : ObjectId) (n : option Json) : Json :=
  JObject (("id", JString (toString id)) :: field "userName" n).

Definition nullable (v : option string) : Json :=
  match v with
  | Some s => JString s
  | None => JNull
  end.

(** A post document as [res.json] sends it, [auth] being what stands in the
    [author] path.  An absent path is left out, dates are written as their
    milliseconds and the version key is not shown. *)
Definition post_json (auth : option Json) (p : Post.doc) : Json :=
  JObject ([("_id", JString (toString (Post._id p)))]
           ++ field "title" (option_map JString (Post.title p))
           ++ field "summary" (option_map JString (Post.summary p))
           ++ field "content" (option_map JString (Post.content p))
           ++ field "file" (option_map JString (Post.file p))
           ++ [("cover", nullable (Post.cover p))]
           ++ field "author" auth
           ++ [("createdAt", JNumber (Post.createdAt p));
               ("updatedAt", JNumber (Post.updatedAt p))]).

Definition plain_author (p : Post.doc) : option Json :=
  option_map (fun a => JString (toString a)) (Post.author p).

(** [.populate("author", "userName")]: the referenced user's [_id] and
    [userName], [null] when no such user exists. *)
Definition populate (us : list User.doc) (p : Post.doc) : option Json :=
  option_map
    (fun a => match User.findById a us with
              | Some u => JObject [("_id", JString (toString (User._id u)));
                                   ("userName", JString (User.userName u))]
              | None => JNull
              end)
    (Post.author p).

(** [path + "." + ext] with [ext] the last part of [originalname.split(".")]. *)
Definition newPath_of (f : File) : string :=
  path f ++ "." ++ last (Js.split "." (originalname f)) "".

(** [fs.renameSync(from, to)]: the rename, or the error it throws when the
    file system refuses (a name too long, a file gone). *)
Definition renameSync (env : Env) (from to : string) (w : World)
    : result World string :=
  if renames_to env from to
  then Ok (mkWorld (users w) (posts w) ((from, to) :: renames w))
  else Err "rename failed".

(** The three results of the comparison
    [post.author.toString() !== info.userId] on a loaded post: the two
    branches, and the TypeError of [toString] on a post without [author]. *)
Inductive Ownership : Type :=
| Allow
| Forbidden
| TypeError.

Definition ownership (post : Post.doc) (info : Info) : Ownership :=
  match Post.author post with
  | None => TypeError
  | Some a =>
      if String.eqb (toString a) (userId (claim info)) then Allow else Forbidden
  end.

(** ** The routes of api/index.js *)

Section Server.

Context {JWT : JsonWebToken} {BCR : Bcrypt} {MGC : MongooseCast}.

(** [const secret = process.env.JWT_SECRET]. *)
Variable secret : string.

(** [Math.floor(Date.now() / 1000)], the [iat] of a token signed now. *)
Definition seconds (env : Env) : Z := (now env / 1000)%Z.

(** The failures of the [try] block of POST /register. *)
Inductive RegisterError : Type :=
| HashRejected                       (* bcrypt.hash without a password *)
| CreateRejected (e : User.error).   (* User.create *)

(** The [try] block of POST /register up to [User.create]. *)
Definition register_user (env : Env) (w : World) (req : Request)
    : result (User.doc * World) RegisterError :=
  match body_password (body req) with
  | Some (JString pw) =>
      let hashedPassword := bcrypt_hash pw (salt env) in
      match cast_path (body_userName (body req)) with
      | Err _ => Err (CreateRejected User.ValidationError)
      | Ok name =>
          match User.create (newObjectId env) name hashedPassword (users w) with
          | Err e => Err (CreateRejected e)
          | Ok (userDoc, us) => Ok (userDoc, mkWorld us (posts w) (renames w))
          end
      end
  | _ => Err HashRejected   (* bcrypt.hash takes a string *)
  end.

(** The rename of the upload, when the request has one: the new path and
    the world after it, or the error [fs.renameSync] throws. *)
Definition upload (env : Env) (w : World) (req : Request)
    : result (option string * World) string :=
  match file req with
  | Some f =>
      match renameSync env (path f) (newPath_of f) w with
      | Ok w1 => Ok (Some (newPath_of f), w1)
      | Err e => Err e
      end
  | None => Ok (None, w)
  end.

(** [title], [summary] and [content] of the body as the [String] paths of
    a post take them. *)
Definition fields (req : Request)
    : result (option string * option string * option string) unit :=
  match cast_path (body_title (body req)),
        cast_path (body_summary (body req)),
        cast_path (body_content (body req)) with
  | Ok t, Ok s, Ok c => Ok (t, s, c)
  | _, _, _ => Err tt
  end.

(** app.post("/register") *)
Definition post_register (env : Env) (w : World) (req : Request) : Outcome :=
  match register_user env w req with
  | Err _ => respond w (status_json 400 (error_json "Error registering user"))
  | Ok (userDoc, w') =>
      match jwt_sign (mkClaim (toString (User._id userDoc)) (User.userName userDoc))
                     secret (seconds env) with
      | Err _ => respond w' (status_json 500 (error_json "Internal server error"))
      | Ok token =>
          respond w'
            (mkResponse 200
               (Some (mkCookie "token" token true (Some "strict")))
               (user_json (User._id userDoc) (Some (User.userName userDoc))))
      end
  end.

(** app.post("/login") *)
Definition post_login (env : Env) (w : World) (req : Request) : Outcome :=
  match User.findOne (body_userName (body req)) (users w) with
  | Err _ => mkOutcome w None   (* the query rejects, nothing catches *)
  | Ok (Some userDoc) =>
      match body_password (body req) with
      | Some (JString pw) =>
          if bcrypt_compare pw (User.password userDoc) then
            match jwt_sign (mkClaim (toString (User._id userDoc)) (User.userName userDoc))
                           secret (seconds env) with
            | Err _ => respond w (status_json 500 (error_json "Internal server error"))
            | Ok token =>
                respond w
                  (mkResponse 200
                     (Some (mkCookie "token" token false None))
                     (echo_json (User._id userDoc) (body_userName (body req))))
            end
          else respond w (status_json 400 (error_json "Invalid password"))
      | _ => mkOutcome w None   (* bcrypt.compare rejects, nothing catches *)
      end
  | Ok None => respond w (status_json 400 (error_json "User not found"))
  end.

(** app.get("/profile") *)
Definition get_profile (w : World) (req : Request) : Outcome :=
  match Js.truthy (cookies_token req) with
  | None => respond w (status_json 403 (error_json "Token is missing"))
  | Some token =>
      match jwt_verify token secret with
      | Err _ => respond w (status_json 403 (error_json "Invalid token"))
      | Ok info => respond w (json (info_json info))
      end
  end.

(** app.post("/logout") *)
Definition post_logout (w : World) (req : Request) : Outcome :=
  respond w (mkResponse 200 (Some (mkCookie "token" "" false None)) (JString "ok")).

(** app.post("/post"): the missing token is thrown inside [try], so it is
    the [catch] that answers. *)
Definition post_post (env : Env) (w : World) (req : Request) : Outcome :=
  match Js.truthy (cookies_token req) with
  | None => respond w (status_json 500 (error_json "Internal server error"))
  | Some token =>
      match jwt_verify token secret with
      | Err _ => respond w (status_json 403 (error_json "Invalid token"))
      | Ok info =>
          match upload env w req with
          | Err _ => mkOutcome w None   (* thrown inside the callback *)
          | Ok (newPath, w1) =>
              let cover := option_map (Js.replace "uploads/" "") newPath in
              match fields req with
              | Err _ => mkOutcome w1 None   (* rejection inside the callback *)
              | Ok (title, summary, content) =>
                  match Post.create (newObjectId env) (now env) title summary content
                                    cover (userId (claim info)) (posts w1) with
                  | Err _ => mkOutcome w1 None
                  | Ok (postDoc, ps) =>
                      respond (mkWorld (users w1) ps (renames w1))
                              (json (post_json (plain_author postDoc) postDoc))
                  end
              end
          end
      end
  end.

(** app.get("/post") *)
Definition get_post (w : World) (req : Request) : Outcome :=
  let found := firstn 20 (Post.sort_desc (posts w)) in
  respond w (json (JArray (map (fun p => post_json (populate (users w) p) p) found))).

(** app.get("/post/:id") *)
Definition get_post_id (w : World) (req : Request) : Outcome :=
  if String.eqb (params_id req) ""
  then respond w (status_json 404 (message_json "Post not found"))
  else
    match Post.findById (params_id req) (posts w) with
    | Err _ => respond w (status_json 500 (message_json "Server error"))
    | Ok None => respond w (json JNull)
    | Ok (Some postDoc) =>
        respond w (json (post_json (populate (users w) postDoc) postDoc))
    end.

(** The assignments of PUT /post/:id before [save]. *)
Definition assign (title summary content : option string)
    (newPath : option string) (post : Post.doc) : Post.doc :=
  Post.mk (Post._id post) title summary content
    (Post.file post)
    (match newPath with
     | Some np => Some (Js.replace "uploads/" "" np)
     | None => Post.cover post
     end)
    (Post.author post) (Post.createdAt post) (Post.updatedAt post).

(** PUT /post/:id once the upload is renamed. *)
Definition put_post_id_renamed (env : Env) (w1 : World) (req : Request)
    (newPath : option string) : Outcome :=
  match Js.truthy (cookies_token req) with
  | None => respond w1 (status_json 403 (error_json "Token is missing"))
  | Some token =>
      match jwt_verify token secret with
      | Err _ => respond w1 (status_json 403 (error_json "Invalid token"))
      | Ok info =>
          match Post.findById (params_id req) (posts w1) with
          | Err _ => respond w1 (status_json 500 (error_json "Internal server error"))
          | Ok None => respond w1 (status_json 404 (error_json "Post not found"))
          | Ok (Some post) =>
              match ownership post info with
              | TypeError =>
                  respond w1 (status_json 500 (error_json "Internal server error"))
              | Forbidden =>
                  respond w1
                    (status_json 403 (error_json "You are not the author of this post"))
              | Allow =>
                  match fields req with
                  | Err _ =>   (* [save] rejects inside [try] *)
                      respond w1 (status_json 500 (error_json "Internal server error"))
                  | Ok (title, summary, content) =>
                      let '(updatedPost, ps) :=
                        Post.save (now env) post
                                  (assign title summary content newPath post)
                                  (posts w1) in
                      respond (mkWorld (users w1) ps (renames w1))
                              (json (post_json (plain_author updatedPost) updatedPost))
                  end
              end
          end
      end
  end.

(** app.put("/post/:id"): the rename stands before the [try], so what it
    throws is caught by nothing and no response is sent. *)
Definition put_post_id (env : Env) (w : World) (req : Request) : Outcome :=
  match upload env w req with
  | Err _ => mkOutcome w None
  | Ok (newPath, w1) => put_post_id_renamed env w1 req newPath
  end.

(** The routes [app] registers. *)
Inductive Route : Type :=
| POST_register
| POST_login
| GET_profile
| POST_logout
| POST_post
| GET_post
| GET_post_id
| PUT_post_id.

(** One request served. *)
Definition handle (r : Route) (env : Env) (w : World) (req : Request) : Outcome :=
  match r with
  | POST_register => post_register env w req
  | POST_login => post_login env w req
  | GET_profile => get_profile w req
  | POST_logout => post_logout w req
  | POST_post => post_post env w req
  | GET_post => get_post w req
  | GET_post_id => get_post_id w req
  | PUT_post_id => put_post_id env w req
  end.

(** A sequence of requests served one after the other.  The world is what
    MongoDB and the disk hold: it outlives a handler whose promise rejects
    unhandled, and a restart of the process where Node ends it on such a
    rejection, so the sequence is of the requests the server takes while it
    is up. *)
Fixpoint serve (rs : list (Route * Env * Request)) (w : World) : World :=
  match rs with
  | [] => w
  | (r, env, req) :: rest => serve rest (world (handle r env w req))
  end.

End Server.

(** ** The client (client/src)

    The React components are embedded by what they compute: the state they
    keep ([useState]), the requests they send with [fetch] and what they do
    with the response, and the values they put into the page.  The browser
    keeps one cookie for the API, [token]; a request sent with
    [credentials: "include"] carries it, and a response that sets it
    replaces it. *)

(** What the page takes from the JavaScript runtime and from date-fns:
    [String(value)] for a value that is not a string, as a template literal
    applies it, and [format(new Date(value), "dd-MM-yyyy HH:mm")]. *)
Class JsRuntime : Type := {
  String_of : option Json -> string;
  format_date : option Json -> string
}.

(** [value.key] on a value read from a response, [undefined] ([None]) when
    the value is not an object or has no such key. *)
Definition property (key : string) (value : Json) : option Json :=
  match value with
  | JObject fields =>
      fold_left (fun found kv => if String.eqb (fst kv) key then Some (snd kv) else found)
                fields None
  | _ => None
  end.

(** [value?.key] on a value that may be [undefined]. *)
Definition optional (key : string) (value : option Json) : option Json :=
  match value with
  | Some v => property key v
  | None => None
  end.

(** Whether a condition [value ? ... : ...] or [value || ...] takes the
    value. *)
Definition truthy_value (value : option Json) : bool :=
  match value with
  | None => false
  | Some JNull => false
  | Some (JString s) => negb (String.eqb s "")
  | Some (JNumber z) => negb (Z.eqb z 0)
  | Some (JObject _) => true
  | Some (JArray _) => true
  end.

(** [response.ok]. *)
Definition ok (r : Response) : bool :=
  ((200 <=? status r)%nat && (status r <=? 299)%nat).

(** The state of the page: [userInfo] of UserContextProvider, [posts] of
    HomePage, the route the router shows, the alerts raised, and the
    browser's cookie. *)
Record Page : Type := mkPage {
  userInfo : Json;
  home_posts : Json;
  location : string;
  alerts : list string;
  jar : option string
}.

(** The page as it loads: [useState(null)], [useState([])]. *)
Definition load (at_ : string) (cookie_ : option string) : Page :=
  mkPage JNull (JArray []) at_ [] cookie_.

(** The [token] cookie after a response. *)
Definition received (r : Response) (old : option string) : option string :=
  match cookie r with
  | Some c => if String.eqb (name c) "token" then Some (value c) else old
  | None => old
  end.

(** What Post.js puts into a card. *)
Record Card : Type := mkCard {
  to : string;              (* both links *)
  img_src : string;
  img_alt : string;
  heading : option Json;    (* {title} *)
  author_text : Json;       (* {author?.userName || "Unknown"} *)
  time_text : string;
  summary_text : option Json
}.

(** What Header.js shows in [nav]: the greeting and the links of a member,
    or the links to log in and to register. *)
Inductive Nav : Type :=
| Member (greeted : Json)
| Guest.

Section Client.

Context {JWT : JsonWebToken} {BCR : Bcrypt} {MGC : MongooseCast} {JSR : JsRuntime}.

Variable secret : string.

(** A value inside a template literal. *)
Definition interpolate (value : option Json) : string :=
  match value with
  | Some (JString s) => s
  | _ => String_of value
  end.

(** Post.js: [Post({ title, summary, cover, content, createdAt, author, _id })]. *)
Definition Post_card (props : Json) : Card :=
  let cover := property "cover" props in
  let name := optional "userName" (property "author" props) in
  mkCard
    ("/post/" ++ interpolate (property "_id" props))%string
    (if truthy_value cover
     then ("http://localhost:4000/uploads/" ++ interpolate cover)%string
     else "https://scienceblog.com/wp-content/uploads/2023/09/El-Gordo.jpg")
    (if truthy_value cover then "Post cover" else "Default cover")
    (property "title" props)
    (match name with
     | Some v => if truthy_value name then v else JString "Unknown"
     | None => JString "Unknown"
     end)
    (format_date (property "createdAt" props))
    (property "summary" props).

(** IndexPage.js, the render of HomePage:
    [posts.length > 0 && posts.map((post) => <Post key={post._id} {...post} />)]. *)
Definition HomePage_cards (pg : Page) : list Card :=
  match home_posts pg with
  | JArray items => map Post_card items
  | _ => []
  end.

(** IndexPage.js, the effect of HomePage: [fetch] of GET /post, without
    credentials. *)
Definition HomePage_effect (w : World) (pg : Page) : Page :=
  match response (get_post w (mkRequest (mkBody None None None None None) None None "")) with
  | Some r =>
      if ok r
      then mkPage (userInfo pg) (sent r) (location pg) (alerts pg) (jar pg)
      else pg
  | None => pg
  end.

(** UserContext.js, the effect of UserContextProvider: [fetch] of
    GET /profile with credentials; a response that is not [ok] is logged
    and changes nothing. *)
Definition UserContextProvider_effect (w : World) (pg : Page) : Page :=
  match response (get_profile secret w
                    (mkRequest (mkBody None None None None None) (jar pg) None "")) with
  | Some r =>
      if ok r
      then mkPage (sent r) (home_posts pg) (location pg) (alerts pg) (received r (jar pg))
      else mkPage (userInfo pg) (home_posts pg) (location pg) (alerts pg)
                  (received r (jar pg))
  | None => pg
  end.

(** Header.js, [userInfo?.userName ? ... : ...]. *)
Definition Header_nav (pg : Page) : Nav :=
  match property "userName" (userInfo pg) with
  | Some v => if truthy_value (Some v) then Member v else Guest
  | None => Guest
  end.

(** Header.js, [logout]: POST /logout with credentials, then
    [setUserInfo(null)] and [navigate("/login")] whatever the response. *)
Definition logout (w : World) (pg : Page) : Page * World :=
  let out := post_logout w (mkRequest (mkBody None None None None None) (jar pg) None "") in
  match response out with
  | Some r => (mkPage JNull (home_posts pg) "/login" (alerts pg) (received r (jar pg)),
               world out)
  | None => (pg, world out)
  end.

(** LoginPage.js, [login]: POST /login with the two fields of the form as
    JSON, with credentials; on [ok] the response becomes [userInfo] and the
    router goes to "/", otherwise an alert. *)
Definition login (env : Env) (w : World) (userName_ password_ : string) (pg : Page)
    : Page * World :=
  let out := post_login secret env w
               (mkRequest (mkBody (Some (JString userName_)) (Some (JString password_))
                                  None None None)
                          (jar pg) None "") in
  match response out with
  | Some r =>
      if ok r
      then (mkPage (sent r) (home_posts pg) "/" (alerts pg) (received r (jar pg)),
            world out)
      else (mkPage (userInfo pg) (home_posts pg) (location pg)
                   ("Login failed" :: alerts pg) (received r (jar pg)),
            world out)
  | None => (pg, world out)
  end.

End Client.

(** ** An instance of each library

    Small stand-ins with the same interface, used to run the routes on
    concrete requests.  The token is the three fields of the payload, each
    quoted, followed by the key; the hash is the salt, a dollar sign and the
    password; an ObjectId is a string of 24 hexadecimal digits. *)

Module Sample.

(** A self-delimiting quotation: [1] before each character, [0] at the end. *)
Fixpoint quote (s : string) : string :=
  match s with
  | EmptyString => "0"
  | String c r => String "1" (String c (quote r))
  end.

Fixpoint unquote (s : string) : option (string * string) :=
  match s with
  | String "0" rest => Some ("", rest)
  | String "1" (String c r) =>
      match unquote r with
      | Some (x, rest) => Some (String c x, rest)
      | None => None
      end
  | _ => None
  end.

Fixpoint bits (p : positive) : string :=
  match p with
  | xH => ""
  | xO q => String "0" (bits q)
  | xI q => String "1" (bits q)
  end.

Fixpoint unbits (s : string) : option positive :=
  match s with
  | EmptyString => Some xH
  | String "0" r => option_map xO (unbits r)
  | String "1" r => option_map xI (unbits r)
  | _ => None
  end.

Definition number (z : Z) : string :=
  match z with
  | Z0 => "z"
  | Zpos p => String "p" (bits p)
  | Zneg p => String "n" (bits p)
  end.

Definition unnumber (s : string) : option Z :=
  match s with
  | String "z" EmptyString => Some Z0
  | String "p" r => option_map Zpos (unbits r)
  | String "n" r => option_map Zneg (unbits r)
  | _ => None
  end.

Definition sign (c : Claim) (key : string) (t : Z) : result string string :=
  if String.eqb key "" then Err "secretOrPrivateKey must have a value"
  else Ok (quote (userId c) ++ quote (userName c) ++ quote (number t) ++ key)%string.

Definition verify (token key : string) : result Info string :=
  match unquote token with
  | None => Err "jwt malformed"
  | Some (uid, r1) =>
      match unquote r1 with
      | None => Err "jwt malformed"
      | Some (uname, r2) =>
          match unquote r2 with
          | None => Err "jwt malformed"
          | Some (num, sig) =>
              match unnumber num with
              | None => Err "jwt malformed"
              | Some t =>
                  if String.eqb sig key then Ok (mkInfo (mkClaim uid uname) t)
                  else Err "invalid signature"
              end
          end
      end
  end.

Definition hash (pw slt : string) : string := slt ++ "$" ++ pw.

Definition compare (pw hashed : string) : bool :=
  String.eqb
    (substring (String.length hashed - (String.length pw + 1))
               (String.length pw + 1) hashed)
    ("$" ++ pw).

(** A hexadecimal digit in lower case, [None] for any other character. *)
Definition hexdigit (c : ascii) : option ascii :=
  let n := nat_of_ascii c in
  if ((48 <=? n) && (n <=? 57))%nat then Some c
  else if ((97 <=? n) && (n <=? 102))%nat then Some c
  else if ((65 <=? n) && (n <=? 70))%nat then Some (ascii_of_nat (n + 32))
  else None.

Fixpoint hexstring (s : string) : option string :=
  match s with
  | EmptyString => Some EmptyString
  | String c r =>
      match hexdigit c, hexstring r with
      | Some d, Some t => Some (String d t)
      | _, _ => None
      end
  end.

Definition cast (s : string) : option ObjectId :=
  if (String.length s =? 24)%nat then option_map Oid (hexstring s) else None.

(** The [String] cast: strings, and numbers as a fixed text; objects and
    arrays are refused. *)
Definition string_cast (value : Json) : option string :=
  match value with
  | JString s => Some s
  | JNumber _ => Some "0"
  | _ => None
  end.

(** The values taken as a filter: a string and the operator object
    [{ "$ne": null }]. *)
Definition filterable (value : Json) : bool :=
  match value with
  | JString _ => true
  | JObject [("$ne", JNull)] => true
  | _ => false
  end.

(** Filters: a string by equality, the operator object [{ "$ne": null }]
    by every stored string, nothing else by anything. *)
Definition filter (value : Json) (stored : string) : bool :=
  match value with
  | JString n => String.eqb stored n
  | JObject [("$ne", JNull)] => true
  | _ => false
  end.

(** [String(value)] on the values that are not strings, numbers apart. *)
Definition text (value : option Json) : string :=
  match value with
  | None => "undefined"
  | Some JNull => "null"
  | Some (JString s) => s
  | Some (JNumber _) => "0"
  | Some (JObject _) => "[object Object]"
  | Some (JArray _) => ""
  end.

Definition date (value : option Json) : string := "01-01-2024 00:00".

End Sample.

(** ** The session token codec

    jsonwebtoken is not part of the repository; the codec is modelled from
    section 4.1 of the specification.  The signature primitive is left
    open: [mac key text] is the signature of [text] under [key]. *)

Module TokenCodec.

Section Codec.

Variable mac : string -> string -> string.

(** Modelled from the spec: the serialisation of [issue] ("serializes the
    claim"), absent with the jsonwebtoken library: the two fields of the
    claim and the implicit [issuedAt], each self-delimited, followed by
    [tail]. *)
Definition frame (c : Claim) (t : Z) (tail : string) : string :=
  (Sample.quote (userId c) ++ Sample.quote (userName c)
   ++ Sample.quote (Sample.number t) ++ tail)%string.

(** Modelled from the spec: [issue(claim, secretKey) -> token] of the
    absent jsonwebtoken library ([jwt.sign]): "serializes the claim and
    computes a cryptographic signature over it using secretKey; returns a
    compact encoded string". *)
Definition issue (c : Claim) (key : string) (t : Z) : result string string :=
  Ok (frame c t (mac key (frame c t ""))).

(** Modelled from the spec: [verify(token, secretKey) -> claim | fails with
    InvalidToken] of the absent jsonwebtoken library ([jwt.verify]):
    "decodes the token, recomputes the signature over the embedded claim
    using secretKey, and compares; fails with InvalidToken if the signature
    does not match [or] the encoding is malformed". *)
Definition verify (token key : string) : result Info string :=
  match Sample.unquote token with
  | None => Err "InvalidToken"
  | Some (uid, r1) =>
      match Sample.unquote r1 with
      | None => Err "InvalidToken"
      | Some (uname, r2) =>
          match Sample.unquote r2 with
          | None => Err "InvalidToken"
          | Some (num, signature) =>
              match Sample.unnumber num with
              | None => Err "InvalidToken"
              | Some t =>
                  if String.eqb signature (mac key (frame (mkClaim uid uname) t ""))
                  then Ok (mkInfo (mkClaim uid uname) t)
                  else Err "InvalidToken"
              end
          end
      end
  end.

End Codec.

End TokenCodec.

(** ** A run of the server

    Two registered users, one post written by the first, and the requests
    the statements above are instantiated on. *)

Module Run.

Definition secret : string := "s3cr3t".

(** A signature that is the key itself, to run the codec. *)
Definition mac (key text : string) : string := key.

Definition alice_id : ObjectId := Oid "64b7f0c2a1d3e4f5a6b7c8d9".
Definition bob_id : ObjectId := Oid "64b7f0c2a1d3e4f5a6b7c8da".
Definition post_id : ObjectId := Oid "64b7f0c2a1d3e4f5a6b7c8e0".

Definition alice : User.doc :=
  User.mk alice_id "alice" (Sample.hash "wonderland" "salt-a").
Definition bob : User.doc :=
  User.mk bob_id "bob" (Sample.hash "builder" "salt-b").

Definition hello : Post.doc :=
  Post.mk post_id (Some "Hello") (Some "First post") (Some "<p>Hi</p>") None None
          (Some alice_id) 1700000000000 1700000000000.

Definition empty : World := mkWorld [] [] [].
Definition blog : World := mkWorld [alice; bob] [hello] [].

Definition env : Env :=
  mkEnv 1700000600000 (Oid "64b7f0c2a1d3e4f5a6b7c8ff") "salt-c"
        (fun _ to => (String.length to <=? 255)%nat).

Definition no_body : Body := mkBody None None None None None.

Definition credentials (n pw : string) : Body :=
  mkBody (Some (JString n)) (Some (JString pw)) None None None.

Definition edit : Body :=
  mkBody None None (Some (JString "Hello again")) (Some (JString "Edited"))
         (Some (JString "<p>Hi!</p>")).

Definition claim_of (u : User.doc) : Claim :=
  mkClaim (toString (User._id u)) (User.userName u).

(** The token signed for a user at the clock of [env], and its payload. *)
Definition token_of (u : User.doc) : string :=
  match Sample.sign (claim_of u) secret (seconds env) with
  | Ok t => t
  | Err _ => ""
  end.

Definition info_of (u : User.doc) : Info := mkInfo (claim_of u) (seconds env).

Definition picture : File := mkFile "cat.final.png" "uploads/3f9a".

Definition register_carol : Request :=
  mkRequest (credentials "carol" "looking-glass") None None "".
Definition register_alice_again : Request :=
  mkRequest (credentials "alice" "other") None None "".
Definition register_without_password : Request :=
  mkRequest (mkBody (Some (JString "dave")) None None None None) None None "".
Definition login_alice : Request :=
  mkRequest (credentials "alice" "wonderland") None None "".
Definition create_without_cookie : Request :=
  mkRequest edit None None "".
Definition update_by (u : User.doc) : Request :=
  mkRequest edit (Some (token_of u)) None (toString post_id).
Definition update_without_cookie : Request :=
  mkRequest edit None (Some picture) (toString post_id).
Definition read_unknown : Request :=
  mkRequest no_body None None "64b7f0c2a1d3e4f5a6b7c8e1".
Definition login_bob_guessing : Request :=
  mkRequest (credentials "bob" "guess") None None "".
Definition create_by (u : User.doc) : Request :=
  mkRequest edit (Some (token_of u)) (Some picture) "".
Definition read_created : Request :=
  mkRequest no_body None None (toString (newObjectId env)).
Definition update_unknown_by (u : User.doc) : Request :=
  mkRequest edit (Some (token_of u)) None "64b7f0c2a1d3e4f5a6b7c8e1".
Definition profile_of (u : User.doc) : Request :=
  mkRequest no_body (Some (token_of u)) None "".

(** The post [create_by alice] stores, and [hello] after [update_by alice]. *)
Definition created : Post.doc :=
  Post.mk (newObjectId env) (Some "Hello again") (Some "Edited") (Some "<p>Hi!</p>")
          None (Some "3f9a.png") (Some alice_id) (now env) (now env).
Definition edited : Post.doc :=
  Post.mk post_id (Some "Hello again") (Some "Edited") (Some "<p>Hi!</p>") None None
          (Some alice_id) 1700000000000 (now env).

Definition update_with_picture_by (u : User.doc) : Request :=
  mkRequest edit (Some (token_of u)) (Some picture) (toString post_id).


Definition retitle : Body :=
  mkBody None None (Some (JString "Third time")) None None.
Definition update_created_by (u : User.doc) : Request :=
  mkRequest retitle (Some (token_of u)) None (toString (newObjectId env)).

(** Carol as POST /register stores her. *)
Definition carol : User.doc :=
  User.mk (newObjectId env) "carol" (Sample.hash "looking-glass" (salt env)).

(** A later moment and a few requests served one after the other. *)
Definition later : Env :=
  mkEnv 1700000900000 (Oid "64b7f0c2a1d3e4f5a6b7c900") "salt-d"
        (fun _ to => (String.length to <=? 255)%nat).
Definition history : list (Route * Env * Request) :=
  [(POST_register, env, register_carol);
   (PUT_post_id, env, update_by alice);
   (POST_post, later, create_by alice);
   (POST_logout, later, profile_of alice)].

Definition token_later (u : User.doc) : string :=
  match Sample.sign (claim_of u) secret (seconds later) with
  | Ok t => t
  | Err _ => ""
  end.

(** The page of somebody who is on "/login" and has no cookie. *)
Definition visitor : Page := load "/login" None.
(** The page of Alice, logged in. *)
Definition member : Page :=
  mkPage (user_json alice_id (Some "alice")) (JArray []) "/" [] (Some (token_of alice)).

End Run.

(** * Properties *)

(** ** Strings, tokens and cookies *)

Lemma falsy_Some_false (s : string) : s <> "" -> Js.falsy (Some s) = false.
Proof.
  intros Hs. unfold Js.falsy. now apply String.eqb_neq.
Qed.

Lemma truthy_Some (v : option string) (s : string) :
  Js.truthy v = Some s -> v = Some s /\ s <> "".
Proof.
  unfold Js.truthy. destruct (Js.falsy v) eqn:F; [discriminate|].
  intros ->. split; [reflexivity|].
  intros ->. discriminate F.
Qed.

Lemma truthy_falsy (v : option string) : Js.falsy v = true -> Js.truthy v = None.
Proof.
  intros F. unfold Js.truthy. now rewrite F.
Qed.

Lemma truthy_nonempty (s : string) : s <> "" -> Js.truthy (Some s) = Some s.
Proof.
  intros Hs. unfold Js.truthy. now rewrite falsy_Some_false.
Qed.

Lemma ObjectId_eqb_eq (a b : ObjectId) : ObjectId_eqb a b = true <-> a = b.
Proof.
  unfold ObjectId_eqb. rewrite String.eqb_eq.
  destruct a as [x], b as [y]; simpl. split; congruence.
Qed.

Lemma ObjectId_eqb_refl (a : ObjectId) : ObjectId_eqb a a = true.
Proof. now apply ObjectId_eqb_eq. Qed.

Section Tokens.

Context {JWT : JsonWebToken}.

(** A signed token is never the empty string, which [jwt.verify] refuses. *)
Lemma jwt_sign_nonempty (c : Claim) (k : string) (t : Z) (tok : string) :
  jwt_sign c k t = Ok tok -> tok <> "".
Proof.
  intros Hs ->. apply jwt_verify_sign in Hs.
  destruct (jwt_verify_empty k) as [e He]. congruence.
Qed.

End Tokens.

(** ** The collections *)

Lemma find_replaceOne (oid : ObjectId) (old saved : Post.doc) (coll : list Post.doc) :
  Post._id saved = Post._id old ->
  find (fun p => ObjectId_eqb (Post._id p) oid) coll = Some old ->
  find (fun p => ObjectId_eqb (Post._id p) oid) (Post.replaceOne saved coll)
  = Some saved.
Proof.
  intros Hid. induction coll as [|q rest IH]; simpl; [discriminate|].
  destruct (ObjectId_eqb (Post._id q) oid) eqn:Hq.
  - intros [= ->]. rewrite Hid, ObjectId_eqb_refl. simpl.
    now rewrite Hid, Hq.
  - intros Hfind.
    assert (Hold : ObjectId_eqb (Post._id old) oid = true).
    { apply find_some in Hfind. tauto. }
    apply ObjectId_eqb_eq in Hold.
    rewrite Hid, Hold, Hq. simpl. rewrite Hq. now apply IH.
Qed.

Lemma save_id (t : Z) (old new : Post.doc) (coll : list Post.doc) :
  Post._id (fst (Post.save t old new coll)) = Post._id new.
Proof.
  unfold Post.save; simpl. now destruct (Post.isModified old new).
Qed.

Lemma save_fields (t : Z) (old new : Post.doc) (coll : list Post.doc) :
  let saved := fst (Post.save t old new coll) in
  Post.title saved = Post.title new /\ Post.summary saved = Post.summary new /\
  Post.content saved = Post.content new /\ Post.cover saved = Post.cover new /\
  Post.author saved = Post.author new /\ Post.createdAt saved = Post.createdAt new.
Proof.
  unfold Post.save; simpl. destruct (Post.isModified old new); simpl; tauto.
Qed.

(** ** Ordering by [createdAt], the newest first *)

Lemma insert_desc_perm (p : Post.doc) (l : list Post.doc) :
  Permutation (p :: l) (Post.insert_desc p l).
Proof.
  induction l as [|q rest IH]; simpl; [reflexivity|].
  destruct (Post.createdAt q <=? Post.createdAt p)%Z; [reflexivity|].
  rewrite perm_swap. now constructor.
Qed.

Lemma sort_desc_perm (l : list Post.doc) : Permutation l (Post.sort_desc l).
Proof.
  induction l as [|p rest IH]; simpl; [constructor|].
  rewrite <- insert_desc_perm. now constructor.
Qed.

Lemma insert_desc_sorted (p : Post.doc) (l : list Post.doc) :
  StronglySorted Post.newer l -> StronglySorted Post.newer (Post.insert_desc p l).
Proof.
  induction 1 as [|q rest Hs IH Hq]; simpl.
  - repeat constructor.
  - destruct (Z.leb_spec (Post.createdAt q) (Post.createdAt p)) as [Hle|Hgt].
    + constructor; [now constructor|].
      constructor; [exact Hle|].
      rewrite Forall_forall in *. intros x Hx.
      specialize (Hq x Hx). unfold Post.newer in *. lia.
    + constructor; [exact IH|].
      rewrite Forall_forall in *. intros x Hx.
      apply (Permutation_in _ (Permutation_sym (insert_desc_perm p rest))) in Hx.
      destruct Hx as [<-|Hx]; [unfold Post.newer; lia|now apply Hq].
Qed.

Lemma sort_desc_sorted (l : list Post.doc) : StronglySorted Post.newer (Post.sort_desc l).
Proof.
  induction l as [|p rest IH]; simpl; [constructor|].
  now apply insert_desc_sorted.
Qed.

Lemma sorted_app_split (a b : list Post.doc) :
  StronglySorted Post.newer (a ++ b) ->
  StronglySorted Post.newer a /\ (forall x y, In x a -> In y b -> Post.newer x y).
Proof.
  induction a as [|p a IH]; simpl; intros Hs.
  - split; [constructor|]. intros x y [].
  - inversion Hs as [|? ? Hrest Hall]; subst.
    destruct (IH Hrest) as [Ha Hab]. split.
    + constructor; [exact Ha|].
      rewrite Forall_forall in *. intros x Hx. apply Hall.
      apply in_or_app. now left.
    + intros x y [<-|Hx] Hy.
      * rewrite Forall_forall in Hall. apply Hall. apply in_or_app. now right.
      * now apply Hab.
Qed.

(** ** The routes *)

Section Routes.

Context {JWT : JsonWebToken} {BCR : Bcrypt} {MGC : MongooseCast}.

Variable secret : string.

(** *** Session tokens *)

(** GET /profile with a cookie that verifies answers with the decoded
    payload. *)
Lemma get_profile_verified (w : World) (req : Request) (token : string) (info : Info) :
  cookies_token req = Some token ->
  jwt_verify token secret = Ok info ->
  get_profile secret w req = respond w (json (info_json info)).
Proof.
  intros Hc Hv. unfold get_profile. rewrite Hc.
  assert (Hne : token <> "").
  { intros ->. destruct (jwt_verify_empty secret) as [e He]. congruence. }
  now rewrite (truthy_nonempty _ Hne), Hv.
Qed.

(** What the [try] block of POST /register did when it did not throw. *)
Lemma register_user_ok (env : Env) (w : World) (req : Request)
    (u : User.doc) (w' : World) :
  register_user env w req = Ok (u, w') ->
  exists pw n,
    body_password (body req) = Some (JString pw) /\
    cast_path (body_userName (body req)) = Ok (Some n) /\
    n <> "" /\
    existsb (fun v => String.eqb (User.userName v) n) (users w) = false /\
    existsb (fun v => ObjectId_eqb (User._id v) (newObjectId env)) (users w) = false /\
    u = User.mk (newObjectId env) n (bcrypt_hash pw (salt env)) /\
    w' = mkWorld (users w ++ [u]) (posts w) (renames w).
Proof.
  unfold register_user.
  destruct (body_password (body req)) as [[| pw | | |]|]; try discriminate.
  destruct (cast_path (body_userName (body req))) as [[n|]|[]]; try discriminate.
  unfold User.create.
  destruct (String.eqb n "") eqn:Hn; simpl; [discriminate|].
  destruct (String.eqb (bcrypt_hash pw (salt env)) ""); simpl; [discriminate|].
  destruct (existsb (fun v => String.eqb (User.userName v) n) (users w)) eqn:Hex;
    [discriminate|].
  destruct (existsb (fun v => ObjectId_eqb (User._id v) (newObjectId env)) (users w))
    eqn:Hid; [discriminate|].
  intros [= <- <-]. exists pw, n. apply String.eqb_neq in Hn. auto 10.
Qed.

(** The cookie POST /register sets carries a token signed for the newly
    stored user. *)
Lemma post_register_cookie (env : Env) (w : World) (req : Request)
    (r : Response) (c : Cookie) :
  response (post_register secret env w req) = Some r ->
  cookie r = Some c ->
  exists u,
    In u (users (world (post_register secret env w req))) /\
    sent r = user_json (User._id u) (Some (User.userName u)) /\
    jwt_sign (mkClaim (toString (User._id u)) (User.userName u)) secret (seconds env)
    = Ok (value c).
Proof.
  unfold post_register.
  destruct (register_user env w req) as [[u w']|e] eqn:Hr; simpl;
    [|intros [= <-]; discriminate].
  destruct (register_user_ok env w req u w' Hr) as (pw & n & _ & _ & _ & _ & _ & Hu & Hw).
  destruct (jwt_sign _ _ _) as [tok|e] eqn:Hs; simpl;
    intros [= <-]; simpl; [|discriminate].
  intros [= <-]; simpl. exists u.
  split; [|split; [reflexivity|exact Hs]].
  rewrite Hw. simpl. apply in_or_app. right. now left.
Qed.

(** The user [findOne] hands back is stored and satisfies the filter. *)
Lemma findOne_found (name : option Json) (coll : list User.doc) (u : User.doc) :
  User.findOne name coll = Ok (Some u) ->
  exists v, name = Some v /\ filters v = true /\ In u coll /\
            matches v (User.userName u) = true.
Proof.
  unfold User.findOne. destruct name as [v|]; [|discriminate].
  destruct (filters v) eqn:Hf; [|discriminate].
  intros [= Hu]. apply find_some in Hu. exists v. tauto.
Qed.

(** The cookie POST /login sets carries a token signed for the stored user
    the request named. *)
Lemma post_login_cookie (env : Env) (w : World) (req : Request)
    (r : Response) (c : Cookie) :
  response (post_login secret env w req) = Some r ->
  cookie r = Some c ->
  exists u,
    In u (users (world (post_login secret env w req))) /\
    jwt_sign (mkClaim (toString (User._id u)) (User.userName u)) secret (seconds env)
    = Ok (value c).
Proof.
  unfold post_login.
  destruct (User.findOne _ _) as [[u|]|[]] eqn:Hf; simpl;
    [|intros [= <-]; discriminate|discriminate].
  destruct (body_password (body req)) as [[| pw | | |]|]; simpl; try discriminate.
  apply findOne_found in Hf. destruct Hf as (v & _ & _ & Hin & _).
  destruct (bcrypt_compare _ _); simpl; [|intros [= <-]; discriminate].
  destruct (jwt_sign _ _ _) as [tok|e] eqn:Hs; simpl;
    intros [= <-]; simpl; [|discriminate].
  intros [= <-]; simpl. exists u. auto.
Qed.

(** Whatever library stands behind [jwt_sign] and [jwt_verify], the cookie
    that POST /register or POST /login sets is the token signed for the
    claim of a stored user, and GET /profile hands it to [jwt_verify] under
    the same secret and sends what that returns. *)
Lemma session_cookie_opens_profile (env : Env) (w : World) (req : Request)
    (out : Outcome) (r : Response) (c : Cookie) :
  out = post_register secret env w req \/ out = post_login secret env w req ->
  response out = Some r ->
  cookie r = Some c ->
  exists u,
    In u (users (world out)) /\
    forall (w' : World) (req' : Request),
      cookies_token req' = Some (value c) ->
      get_profile secret w' req'
      = respond w' (json (info_json
          (mkInfo (mkClaim (toString (User._id u)) (User.userName u)) (seconds env)))).
Proof.
  intros Hout Hr Hc.
  assert (Hu : exists u,
    In u (users (world out)) /\
    jwt_sign (mkClaim (toString (User._id u)) (User.userName u)) secret (seconds env)
    = Ok (value c)).
  { destruct Hout as [-> | ->].
    - destruct (post_register_cookie env w req r c Hr Hc) as (u & Hin & _ & Hs).
      now exists u.
    - exact (post_login_cookie env w req r c Hr Hc). }
  destruct Hu as (u & Hin & Hs).
  exists u. split; [exact Hin|].
  intros w' req' Hreq. apply get_profile_verified with (token := value c).
  - exact Hreq.
  - now apply jwt_verify_sign.
Qed.

(** *** Ownership *)

(** C2: on a post with a recorded author, the ownership test of PUT /post/:id
    allows exactly when the [userId] of the verified identity is the post's
    author and forbids in every other case; one of the two always holds. *)
Theorem ownership_allow_iff (post : Post.doc) (info : Info) (a : ObjectId) :
  Post.author post = Some a ->
  (ownership post info = Allow <-> userId (claim info) = toString a) /\
  (ownership post info = Forbidden <-> userId (claim info) <> toString a) /\
  (ownership post info = Allow \/ ownership post info = Forbidden).
Proof.
  intros Ha. unfold ownership. rewrite Ha.
  destruct (String.eqb_spec (toString a) (userId (claim info))) as [E|N].
  - repeat split; intros; try congruence; auto.
  - repeat split; intros; try congruence; auto.
Qed.

(** The rename of an upload touches neither collection; it is done when
    the file system lets the upload, if there is one, take its new name. *)
Lemma upload_ok (env : Env) (w w1 : World) (req : Request) (newPath : option string) :
  upload env w req = Ok (newPath, w1) ->
  users w1 = users w /\ posts w1 = posts w /\
  newPath = option_map newPath_of (file req).
Proof.
  unfold upload, renameSync. destruct (file req) as [f|]; simpl.
  - destruct (renames_to env _ _); [|discriminate]. now intros [= <- <-].
  - now intros [= <- <-].
Qed.

Lemma upload_renamed (env : Env) (w : World) (req : Request) :
  (forall f, file req = Some f -> renames_to env (path f) (newPath_of f) = true) ->
  exists w1, upload env w req = Ok (option_map newPath_of (file req), w1).
Proof.
  intros Hok. unfold upload, renameSync. destruct (file req) as [f|]; simpl.
  - rewrite (Hok f eq_refl). now eexists.
  - now eexists.
Qed.

(** The routes behind the token proceed in the same way up to the loaded
    post; this is the state PUT /post/:id is in when it reaches the
    ownership test. *)
Lemma put_post_id_loaded (env : Env) (w w1 : World) (req : Request)
    (newPath : option string) (token : string) (info : Info) (post : Post.doc) :
  upload env w req = Ok (newPath, w1) ->
  cookies_token req = Some token ->
  jwt_verify token secret = Ok info ->
  Post.findById (params_id req) (posts w) = Ok (Some post) ->
  put_post_id secret env w req =
  match ownership post info with
  | TypeError => respond w1 (status_json 500 (error_json "Internal server error"))
  | Forbidden =>
      respond w1 (status_json 403 (error_json "You are not the author of this post"))
  | Allow =>
      match fields req with
      | Err _ => respond w1 (status_json 500 (error_json "Internal server error"))
      | Ok (title, summary, content) =>
          let '(updatedPost, ps) :=
            Post.save (now env) post (assign title summary content newPath post)
                      (posts w1) in
          respond (mkWorld (users w1) ps (renames w1))
                  (json (post_json (plain_author updatedPost) updatedPost))
      end
  end.
Proof.
  intros Hup Hc Hv Hf.
  assert (Hne : token <> "").
  { intros ->. destruct (jwt_verify_empty secret) as [e He]. congruence. }
  destruct (upload_ok env w w1 req newPath Hup) as (_ & Hp & _).
  unfold put_post_id, put_post_id_renamed.
  now rewrite Hup, Hc, (truthy_nonempty _ Hne), Hv, Hp, Hf.
Qed.


(** C5: an update of a post by its recorded author succeeds when the file
    system lets its upload (if any) be renamed and the schema casts the
    three fields of its body: the post is saved and then loads with the
    title (and summary and content) of the request, as cast, and with the
    author it had, and the response is the saved post. *)
Theorem put_post_id_author (env : Env) (w : World) (req : Request)
    (token : string) (info : Info) (post : Post.doc) (a : ObjectId)
    (title summary content : option string) :
  (forall f, file req = Some f -> renames_to env (path f) (newPath_of f) = true) ->
  fields req = Ok (title, summary, content) ->
  cookies_token req = Some token ->
  jwt_verify token secret = Ok info ->
  Post.findById (params_id req) (posts w) = Ok (Some post) ->
  Post.author post = Some a ->
  userId (claim info) = toString a ->
  let out := put_post_id secret env w req in
  exists saved,
    response out = Some (json (post_json (plain_author saved) saved)) /\
    Post.findById (params_id req) (posts (world out)) = Ok (Some saved) /\
    Post.title saved = title /\
    Post.summary saved = summary /\
    Post.content saved = content /\
    Post.author saved = Some a /\
    Post._id saved = Post._id post /\
    Post.createdAt saved = Post.createdAt post.
Proof.
  intros Hok Hfs Hc Hv Hf Ha He.
  destruct (upload_renamed env w req Hok) as [w1 Hup].
  destruct (upload_ok env w w1 req _ Hup) as (Hu & Hp & _).
  pose proof (put_post_id_loaded env w w1 req _ token info post Hup Hc Hv Hf) as Heq.
  assert (Ho : ownership post info = Allow).
  { unfold ownership. rewrite Ha, He. now rewrite String.eqb_refl. }
  rewrite Ho, Hfs in Heq. simpl. rewrite Heq. clear Heq.
  set (new := assign title summary content (option_map newPath_of (file req)) post).
  pose proof (save_id (now env) post new (posts w1)) as Hid.
  pose proof (save_fields (now env) post new (posts w1)) as Hsf.
  assert (Hsnd : snd (Post.save (now env) post new (posts w1))
                 = Post.replaceOne (fst (Post.save (now env) post new (posts w1)))
                                   (posts w1)) by reflexivity.
  destruct (Post.save _ _ _ _) as [saved ps]. simpl in *. subst ps.
  exists saved. split; [reflexivity|].
  destruct Hsf as (Ht & Hs & Hcn & _ & Hau & Hcr).
  repeat split; try assumption; try congruence.
  unfold Post.findById in *.
  destruct (castObjectId (params_id req)) as [oid|]; [|discriminate].
  injection Hf as Hf. rewrite Hp. f_equal.
  now apply find_replaceOne with (old := post).
Qed.

(** *** Authentication failures *)

(** Without a token cookie GET /profile and PUT /post/:id answer 403
    "Token is missing", the latter once its upload, if any, is renamed. *)
Lemma get_profile_missing_token (w : World) (req : Request) :
  Js.falsy (cookies_token req) = true ->
  get_profile secret w req = respond w (status_json 403 (error_json "Token is missing")).
Proof.
  intros F. unfold get_profile. now rewrite (truthy_falsy _ F).
Qed.

Lemma put_post_id_missing_token (env : Env) (w : World) (req : Request) :
  (forall f, file req = Some f -> renames_to env (path f) (newPath_of f) = true) ->
  Js.falsy (cookies_token req) = true ->
  response (put_post_id secret env w req)
  = Some (status_json 403 (error_json "Token is missing")).
Proof.
  intros Hok F. destruct (upload_renamed env w req Hok) as [w1 Hup].
  unfold put_post_id, put_post_id_renamed. now rewrite Hup, (truthy_falsy _ F).
Qed.

(** When the file system refuses the rename, PUT /post/:id sends nothing
    and changes nothing, whatever else the request holds. *)
Lemma put_post_id_rename_throws (env : Env) (w : World) (req : Request) (f : File) :
  file req = Some f ->
  renames_to env (path f) (newPath_of f) = false ->
  put_post_id secret env w req = mkOutcome w None.
Proof.
  intros Hf Hno. unfold put_post_id, upload, renameSync. now rewrite Hf, Hno.
Qed.

(** With a cookie that does not verify, the three routes behind the token
    answer 403 "Invalid token", PUT /post/:id once its upload is renamed. *)
Lemma invalid_token_403 (r : Route) (env : Env) (w : World) (req : Request)
    (token e : string) :
  r = GET_profile \/ r = POST_post \/ r = PUT_post_id ->
  (forall f, file req = Some f -> renames_to env (path f) (newPath_of f) = true) ->
  Js.truthy (cookies_token req) = Some token ->
  jwt_verify token secret = Err e ->
  response (handle secret r env w req)
  = Some (status_json 403 (error_json "Invalid token")).
Proof.
  intros Hr Hok Ht Hv. destruct Hr as [-> | [-> | ->]]; simpl.
  - unfold get_profile. now rewrite Ht, Hv.
  - unfold post_post. now rewrite Ht, Hv.
  - destruct (upload_renamed env w req Hok) as [w1 Hup].
    unfold put_post_id, put_post_id_renamed. now rewrite Hup, Ht, Hv.
Qed.

(** C3: POST /post without a token cookie does not answer with the
    missing-token error of the other two routes: the error it throws is
    caught by its own [catch], and the response is 500
    "Internal server error". *)
Theorem post_post_missing_token (env : Env) (w : World) (req : Request) :
  Js.falsy (cookies_token req) = true ->
  post_post secret env w req
  = respond w (status_json 500 (error_json "Internal server error")).
Proof.
  intros F. unfold post_post. now rewrite (truthy_falsy _ F).
Qed.

(** A request that fails authentication leaves both collections as they
    were, on each of the three routes. *)
Lemma failed_authentication_keeps_collections (r : Route) (env : Env) (w : World)
    (req : Request) :
  r = GET_profile \/ r = POST_post \/ r = PUT_post_id ->
  (Js.truthy (cookies_token req) = None \/
   exists token e, Js.truthy (cookies_token req) = Some token /\
                   jwt_verify token secret = Err e) ->
  users (world (handle secret r env w req)) = users w /\
  posts (world (handle secret r env w req)) = posts w.
Proof.
  intros Hr Hfail.
  destruct Hr as [-> | [-> | ->]]; simpl.
  - unfold get_profile.
    destruct Hfail as [Ht | (token & e & Ht & Hv)]; rewrite Ht; try rewrite Hv; auto.
  - unfold post_post.
    destruct Hfail as [Ht | (token & e & Ht & Hv)]; rewrite Ht; try rewrite Hv; auto.
  - unfold put_post_id, put_post_id_renamed.
    destruct (upload env w req) as [[newPath w1]|err] eqn:Hup; simpl; [|auto].
    destruct (upload_ok env w w1 req newPath Hup) as (Hu & Hp & _).
    destruct Hfail as [Ht | (token & e & Ht & Hv)]; rewrite Ht; try rewrite Hv; auto.
Qed.

(** C7: PUT /post/:id renames the uploaded file before it looks at the
    token: a request with a file the file system lets be renamed and no
    token cookie is answered 403 "Token is missing" and has called
    [fs.renameSync] all the same. *)
Theorem put_post_id_renames_before_token (env : Env) (w : World) (req : Request)
    (f : File) :
  file req = Some f ->
  renames_to env (path f) (newPath_of f) = true ->
  Js.falsy (cookies_token req) = true ->
  put_post_id secret env w req
  = respond (mkWorld (users w) (posts w)
               ((path f, newPath_of f) :: renames w))
            (status_json 403 (error_json "Token is missing")).
Proof.
  intros Hf Hok F. unfold put_post_id, put_post_id_renamed, upload, renameSync.
  rewrite Hf, Hok. now rewrite (truthy_falsy _ F).
Qed.

(** POST /post, in contrast, renames nothing on a request that fails
    authentication. *)
Lemma post_post_failed_authentication (env : Env) (w : World) (req : Request) :
  (Js.truthy (cookies_token req) = None \/
   exists token e, Js.truthy (cookies_token req) = Some token /\
                   jwt_verify token secret = Err e) ->
  world (post_post secret env w req) = w.
Proof.
  unfold post_post. intros [Ht | (token & e & Ht & Hv)]; rewrite Ht;
    try rewrite Hv; reflexivity.
Qed.

(** *** Cookies *)

(** POST /register sets the cookie [token] with [httpOnly]. *)
Lemma post_register_cookie_httpOnly (env : Env) (w : World) (req : Request)
    (r : Response) (c : Cookie) :
  response (post_register secret env w req) = Some r ->
  cookie r = Some c ->
  name c = "token" /\ httpOnly c = true /\ sameSite c = Some "strict".
Proof.
  unfold post_register.
  destruct (register_user _ _ _) as [[u w']|e]; simpl;
    [|intros [= <-]; discriminate].
  destruct (jwt_sign _ _ _); simpl; intros [= <-]; simpl; [|discriminate].
  intros [= <-]. auto.
Qed.

(** C6: the cookie [token] that POST /login sets has no [httpOnly]
    attribute (and no [sameSite]): [res.cookie("token", token)] is called
    without options. *)
Theorem post_login_cookie_not_httpOnly (env : Env) (w : World) (req : Request)
    (r : Response) (c : Cookie) :
  response (post_login secret env w req) = Some r ->
  cookie r = Some c ->
  name c = "token" /\ httpOnly c = false /\ sameSite c = None.
Proof.
  unfold post_login.
  destruct (User.findOne _ _) as [[u|]|[]]; simpl;
    [|intros [= <-]; discriminate|discriminate].
  destruct (body_password (body req)) as [[| pw | | |]|]; simpl; try discriminate.
  destruct (bcrypt_compare _ _); simpl; [|intros [= <-]; discriminate].
  destruct (jwt_sign _ _ _); simpl; intros [= <-]; simpl; [|discriminate].
  intros [= <-]. auto.
Qed.

(** *** Registration *)

(** C8: a registration whose [userName] is (as the schema casts it)
    already that of a stored user is answered 400 with the one message the
    route has for every failure of its [try] block, "Error registering
    user", and leaves the collections as they were, so no second user of
    that name is stored. *)
Theorem post_register_existing_userName (env : Env) (w : World) (req : Request)
    (u : User.doc) :
  In u (users w) ->
  cast_path (body_userName (body req)) = Ok (Some (User.userName u)) ->
  post_register secret env w req
  = respond w (status_json 400 (error_json "Error registering user")).
Proof.
  intros Hin Hn. unfold post_register.
  destruct (register_user env w req) as [[u' w']|e] eqn:Hr; [|reflexivity].
  destruct (register_user_ok env w req u' w' Hr)
    as (pw & n & _ & Hcast & _ & Hex & _).
  assert (n = User.userName u) by congruence. subst n.
  assert (Htrue : existsb (fun v => String.eqb (User.userName v) (User.userName u))
                          (users w) = true).
  { apply existsb_exists. exists u. split; [exact Hin|apply String.eqb_refl]. }
  congruence.
Qed.

(** Every failure of the [try] block of POST /register gets the same
    response. *)
Lemma post_register_failure (env : Env) (w : World) (req : Request) (e : RegisterError) :
  register_user env w req = Err e ->
  post_register secret env w req
  = respond w (status_json 400 (error_json "Error registering user")).
Proof.
  intros He. unfold post_register. now rewrite He.
Qed.

(** *** Reading posts *)

(** C9: GET /post/:id with an id that casts to an ObjectId under which no
    post is stored answers 200 with the body [null], not 404. *)
Theorem get_post_id_absent (w : World) (req : Request) (oid : ObjectId) :
  params_id req <> "" ->
  castObjectId (params_id req) = Some oid ->
  find (fun p => ObjectId_eqb (Post._id p) oid) (posts w) = None ->
  get_post_id w req = respond w (mkResponse 200 None JNull).
Proof.
  intros Hne Hc Hf. unfold get_post_id, Post.findById.
  apply String.eqb_neq in Hne. now rewrite Hne, Hc, Hf.
Qed.

(** C10: GET /post sends the posts [shown], where the stored posts are
    [shown] and [rest] together, [shown] has 20 posts or all of them if
    there are fewer, is in descending order of [createdAt], and no post of
    [rest] was created after a post of [shown]. *)
Theorem get_post_latest_20 (w : World) (req : Request) :
  exists shown rest,
    get_post w req
    = respond w (json (JArray (map (fun p => post_json (populate (users w) p) p) shown))) /\
    Permutation (posts w) (shown ++ rest) /\
    length shown = Nat.min 20 (length (posts w)) /\
    length shown <= 20 /\
    StronglySorted Post.newer shown /\
    (forall x y, In x shown -> In y rest -> Post.newer x y).
Proof.
  exists (firstn 20 (Post.sort_desc (posts w))), (skipn 20 (Post.sort_desc (posts w))).
  pose proof (sort_desc_sorted (posts w)) as Hs.
  pose proof (sort_desc_perm (posts w)) as Hp.
  rewrite <- (firstn_skipn 20 (Post.sort_desc (posts w))) in Hs.
  apply sorted_app_split in Hs. destruct Hs as [Hs1 Hs2].
  split; [reflexivity|].
  split; [now rewrite firstn_skipn|].
  split; [rewrite length_firstn; now rewrite <- (Permutation_length Hp)|].
  split; [rewrite length_firstn; apply Nat.le_min_l|].
  split; assumption.
Qed.

(** *** What every request preserves *)

Lemma Forall_replaceOne (P : Post.doc -> Prop) (p : Post.doc) (coll : list Post.doc) :
  P p -> Forall P coll -> Forall P (Post.replaceOne p coll).
Proof.
  intros Hp. induction 1 as [|q rest Hq Hrest IH]; simpl; [constructor|].
  destruct (ObjectId_eqb (Post._id q) (Post._id p)); now constructor.
Qed.

End Routes.

(** ** The sample libraries satisfy the interfaces *)

Lemma unquote_quote (s rest : string) :
  Sample.unquote (Sample.quote s ++ rest) = Some (s, rest).
Proof.
  induction s as [|c s IH]; simpl; [reflexivity|].
  now rewrite IH.
Qed.

Lemma unbits_bits (p : positive) : Sample.unbits (Sample.bits p) = Some p.
Proof.
  induction p as [q IH|q IH|]; simpl; try rewrite IH; reflexivity.
Qed.

Lemma unnumber_number (z : Z) : Sample.unnumber (Sample.number z) = Some z.
Proof.
  destruct z as [|p|p]; simpl; [reflexivity| |]; now rewrite unbits_bits.
Qed.

Lemma sample_verify_sign (c : Claim) (k : string) (t : Z) (tok : string) :
  Sample.sign c k t = Ok tok -> Sample.verify tok k = Ok (mkInfo c t).
Proof.
  unfold Sample.sign, Sample.verify.
  destruct (String.eqb k ""); [discriminate|].
  intros [= <-]. rewrite !unquote_quote, unnumber_number, String.eqb_refl.
  now destruct c.
Qed.

Lemma sample_verify_empty (k : string) : exists e, Sample.verify "" k = Err e.
Proof.
  now exists "jwt malformed".
Qed.

#[export] Instance sample_jsonwebtoken : JsonWebToken :=
  {| jwt_sign := Sample.sign;
     jwt_verify := Sample.verify;
     jwt_verify_sign := sample_verify_sign;
     jwt_verify_empty := sample_verify_empty |}.

(** ** The codec of the specification *)

(** The round trip of the codec: a token that [issue] returns is verified
    under the same key to the claim and the time it was issued for. *)
Lemma verify_issue (mac : string -> string -> string) (c : Claim) (k : string)
    (t : Z) (tok : string) :
  TokenCodec.issue mac c k t = Ok tok ->
  TokenCodec.verify mac tok k = Ok (mkInfo c t).
Proof.
  unfold TokenCodec.issue, TokenCodec.verify, TokenCodec.frame.
  intros [= <-]. rewrite !unquote_quote, unnumber_number.
  destruct c as [uid uname]. simpl. now rewrite String.eqb_refl.
Qed.

Lemma verify_empty (mac : string -> string -> string) (k : string) :
  exists e, TokenCodec.verify mac "" k = Err e.
Proof.
  now exists "InvalidToken".
Qed.

(** The codec as the library the routes call. *)
Definition codec (mac : string -> string -> string) : JsonWebToken :=
  {| jwt_sign := TokenCodec.issue mac;
     jwt_verify := TokenCodec.verify mac;
     jwt_verify_sign := verify_issue mac;
     jwt_verify_empty := verify_empty mac |}.

#[export] Instance sample_bcrypt : Bcrypt :=
  {| bcrypt_hash := Sample.hash; bcrypt_compare := Sample.compare |}.

Lemma sample_filter_string (n s : string) :
  Sample.filter (JString n) s = String.eqb s n.
Proof. reflexivity. Qed.

#[export] Instance sample_cast : MongooseCast :=
  {| castObjectId := Sample.cast;
     castString := Sample.string_cast;
     castString_string := fun s => eq_refl;
     filters := Sample.filterable;
     filters_string := fun _ => eq_refl;
     matches := Sample.filter;
     matches_string := sample_filter_string |}.

(** ** The round trip of the session token *)

(** C1: for every claim and key, the codec issues a token and verifies it
    under the same key to that claim (with the time of issue); and in the
    server run on this codec, the cookie that POST /register or POST /login
    sets is the token issued for the claim [{ userId, userName }] of a
    stored user, which GET /profile, presented with that cookie, verifies
    under the same secret and answers with. *)
Theorem session_token_round_trip (mac : string -> string -> string) :
  (forall (c : Claim) (k : string) (t : Z),
     exists tok,
       TokenCodec.issue mac c k t = Ok tok /\
       TokenCodec.verify mac tok k = Ok (mkInfo c t)) /\
  (forall (BCR : Bcrypt) (MGC : MongooseCast) (secret : string) (env : Env)
          (w : World) (req : Request) (out : Outcome) (r : Response) (c : Cookie),
     out = post_register (JWT := codec mac) secret env w req \/
     out = post_login (JWT := codec mac) secret env w req ->
     response out = Some r ->
     cookie r = Some c ->
     exists u,
       In u (users (world out)) /\
       TokenCodec.issue mac (mkClaim (toString (User._id u)) (User.userName u))
                        secret (seconds env) = Ok (value c) /\
       forall (w' : World) (req' : Request),
         cookies_token req' = Some (value c) ->
         get_profile (JWT := codec mac) secret w' req'
         = respond w' (json (info_json
             (mkInfo (mkClaim (toString (User._id u)) (User.userName u))
                     (seconds env))))).
Proof.
  split.
  - intros c k t. eexists. split; [reflexivity|]. now apply verify_issue.
  - intros BCR MGC secret env w req out r c Hout Hr Hc.
    assert (Hu : exists u,
      In u (users (world out)) /\
      TokenCodec.issue mac (mkClaim (toString (User._id u)) (User.userName u))
                       secret (seconds env) = Ok (value c)).
    { destruct Hout as [-> | ->].
      - destruct (post_register_cookie (JWT := codec mac) secret env w req r c Hr Hc)
          as (u & Hin & _ & Hs).
        now exists u.
      - exact (post_login_cookie (JWT := codec mac) secret env w req r c Hr Hc). }
    destruct Hu as (u & Hin & Hs).
    exists u. split; [exact Hin|]. split; [exact Hs|].
    intros w' req' Hreq.
    apply (get_profile_verified (JWT := codec mac)) with (token := value c).
    + exact Hreq.
    + now apply verify_issue.
Qed.

(** ** The statements on the run *)

Import Run.

(** Carol registers on the empty blog; her cookie then opens her profile. *)
Lemma session_token_round_trip_run :
  exists u,
    In u (users (world (post_register (JWT := codec mac) secret env empty register_carol))) /\
    TokenCodec.issue mac (mkClaim (toString (User._id u)) (User.userName u))
                     secret (seconds env)
    = Ok (value (mkCookie "token" (token_of carol) true (Some "strict"))) /\
    forall (w' : World) (req' : Request),
      cookies_token req'
      = Some (value (mkCookie "token" (token_of carol) true (Some "strict"))) ->
      get_profile (JWT := codec mac) secret w' req'
      = respond w' (json (info_json
          (mkInfo (mkClaim (toString (User._id u)) (User.userName u)) (seconds env)))).
Proof.
  apply (proj2 (session_token_round_trip mac) sample_bcrypt sample_cast secret env empty
           register_carol
           (post_register (JWT := codec mac) secret env empty register_carol)
           (mkResponse 200
              (Some (mkCookie "token" (token_of carol) true (Some "strict")))
              (user_json (newObjectId env) (Some "carol")))).
  - left. reflexivity.
  - reflexivity.
  - reflexivity.
Defined.

(** Alice and Bob against Alice's post. *)
Lemma ownership_allow_iff_run :
  (ownership hello (info_of bob) = Allow
   <-> userId (claim (info_of bob)) = toString alice_id) /\
  (ownership hello (info_of bob) = Forbidden
   <-> userId (claim (info_of bob)) <> toString alice_id) /\
  (ownership hello (info_of bob) = Allow \/
   ownership hello (info_of bob) = Forbidden).
Proof.
  apply (ownership_allow_iff hello (info_of bob) alice_id).
  reflexivity.
Defined.



(** Alice edits her post. *)
Lemma put_post_id_author_run :
  let out := put_post_id secret env blog (update_by alice) in
  exists saved,
    response out = Some (json (post_json (plain_author saved) saved)) /\
    Post.findById (params_id (update_by alice)) (posts (world out)) = Ok (Some saved) /\
    Post.title saved = Some "Hello again" /\
    Post.summary saved = Some "Edited" /\
    Post.content saved = Some "<p>Hi!</p>" /\
    Post.author saved = Some alice_id /\
    Post._id saved = Post._id hello /\
    Post.createdAt saved = Post.createdAt hello.
Proof.
  apply (put_post_id_author secret env blog (update_by alice)
           (token_of alice) (info_of alice) hello alice_id
           (Some "Hello again") (Some "Edited") (Some "<p>Hi!</p>")).
  - intros f Hf. discriminate Hf.
  - reflexivity.
  - reflexivity.
  - reflexivity.
  - reflexivity.
  - reflexivity.
  - reflexivity.
Defined.

(** A post is submitted without a cookie. *)
Lemma post_post_missing_token_run :
  post_post secret env blog create_without_cookie
  = respond blog (status_json 500 (error_json "Internal server error")).
Proof.
  apply (post_post_missing_token secret env blog create_without_cookie).
  reflexivity.
Defined.

(** Alice logs in. *)
Lemma post_login_cookie_not_httpOnly_run :
  name (mkCookie "token" (token_of alice) false None) = "token" /\
  httpOnly (mkCookie "token" (token_of alice) false None) = false /\
  sameSite (mkCookie "token" (token_of alice) false None) = None.
Proof.
  apply (post_login_cookie_not_httpOnly secret
           env blog login_alice
           (mkResponse 200 (Some (mkCookie "token" (token_of alice) false None))
              (user_json alice_id (Some "alice")))).
  - reflexivity.
  - reflexivity.
Defined.

(** An update with a picture and no cookie. *)
Lemma put_post_id_renames_before_token_run :
  put_post_id secret env blog update_without_cookie
  = respond (mkWorld (users blog) (posts blog)
               ((path picture, newPath_of picture) :: renames blog))
            (status_json 403 (error_json "Token is missing")).
Proof.
  apply (put_post_id_renames_before_token secret env blog update_without_cookie picture).
  - reflexivity.
  - reflexivity.
  - reflexivity.
Defined.

(** Alice's name is registered a second time. *)
Lemma post_register_existing_userName_run :
  post_register secret env blog register_alice_again
  = respond blog (status_json 400 (error_json "Error registering user")).
Proof.
  apply (post_register_existing_userName secret env blog register_alice_again alice).
  - left. reflexivity.
  - reflexivity.
Defined.

(** The same registration and a registration without a password fail for
    different reasons, a duplicate key and a rejected hash, and get the
    same response: the reason is not in it. *)
Lemma post_register_reason_collapsed :
  register_user env blog register_alice_again = Err (CreateRejected User.DuplicateKey) /\
  register_user env blog register_without_password = Err HashRejected /\
  response (post_register secret env blog register_alice_again)
  = response (post_register secret env blog register_without_password) /\
  response (post_register secret env blog register_alice_again)
  = Some (status_json 400 (error_json "Error registering user")).
Proof.
  repeat split; reflexivity.
Qed.

(** A post that does not exist is read. *)
Lemma get_post_id_absent_run :
  get_post_id blog read_unknown = respond blog (mkResponse 200 None JNull).
Proof.
  apply (get_post_id_absent blog read_unknown (Oid "64b7f0c2a1d3e4f5a6b7c8e1")).
  - simpl. intros E. discriminate E.
  - reflexivity.
  - reflexivity.
Defined.

(** * Further properties of the routes *)

(** ** Lists and collections *)

Lemma find_app_old {A : Type} (f : A -> bool) (l l' : list A) (x : A) :
  find f l = Some x -> find f (l ++ l') = Some x.
Proof.
  induction l as [|y l IH]; simpl; [discriminate|].
  destruct (f y); [trivial|exact IH].
Qed.

Lemma find_app_new {A : Type} (f : A -> bool) (l : list A) (x : A) :
  existsb f l = false -> f x = true -> find f (l ++ [x]) = Some x.
Proof.
  induction l as [|y l IH]; simpl; intros He Hx.
  - now rewrite Hx.
  - apply orb_false_iff in He. destruct He as [Hy Hl].
    rewrite Hy. now apply IH.
Qed.

Lemma find_none_existsb {A : Type} (f : A -> bool) (l : list A) :
  find f l = None <-> existsb f l = false.
Proof.
  induction l as [|y l IH]; simpl; [tauto|].
  destruct (f y); simpl; [split; discriminate|exact IH].
Qed.

Lemma ObjectId_eqb_sym (a b : ObjectId) : ObjectId_eqb a b = ObjectId_eqb b a.
Proof.
  unfold ObjectId_eqb. apply String.eqb_sym.
Qed.

Lemma ObjectId_eqb_neq (a b : ObjectId) : ObjectId_eqb a b = false <-> a <> b.
Proof.
  destruct (ObjectId_eqb a b) eqn:E.
  - apply ObjectId_eqb_eq in E. split; [discriminate|congruence].
  - split; [|trivial]. intros _ Hab. apply ObjectId_eqb_eq in Hab. congruence.
Qed.

(** [replaceOne] writes over the first document of the [_id], which is the
    one [find] returns. *)
Lemma replaceOne_found (oid : ObjectId) (old saved : Post.doc) (coll : list Post.doc) :
  Post._id saved = Post._id old ->
  find (fun p => ObjectId_eqb (Post._id p) oid) coll = Some old ->
  exists before after,
    coll = before ++ old :: after /\
    Post.replaceOne saved coll = before ++ saved :: after /\
    existsb (fun p => ObjectId_eqb (Post._id p) oid) before = false.
Proof.
  intros Hid. induction coll as [|q rest IH]; simpl; [discriminate|].
  destruct (ObjectId_eqb (Post._id q) oid) eqn:Hq.
  - intros [= ->]. exists [], rest. simpl.
    now rewrite Hid, ObjectId_eqb_refl.
  - intros Hf.
    assert (Hold : Post._id old = oid).
    { apply find_some in Hf. now apply ObjectId_eqb_eq. }
    destruct (IH Hf) as (before & after & -> & Hr & Hb).
    exists (q :: before), after. simpl.
    rewrite Hid, Hold, Hq, Hr, Hb. auto.
Qed.

Lemma option_map_map_newPath (o : option File) :
  option_map (Js.replace "uploads/" "") (option_map newPath_of o)
  = option_map (fun f => Js.replace "uploads/" "" (newPath_of f)) o.
Proof.
  now destruct o.
Qed.

Section Further.

Context {JWT : JsonWebToken} {BCR : Bcrypt} {MGC : MongooseCast}.

Variable secret : string.

(** ** What a request can do to the collections *)

(** The only write to [users] is the insert of POST /register. *)
Lemma handle_users_cases (r : Route) (env : Env) (w : World) (req : Request) :
  users (world (handle secret r env w req)) = users w \/
  (r = POST_register /\
   exists n pw,
     cast_path (body_userName (body req)) = Ok (Some n) /\
     body_password (body req) = Some (JString pw) /\
     n <> "" /\
     existsb (fun u => String.eqb (User.userName u) n) (users w) = false /\
     existsb (fun u => ObjectId_eqb (User._id u) (newObjectId env)) (users w) = false /\
     users (world (handle secret r env w req))
     = users w ++ [User.mk (newObjectId env) n (bcrypt_hash pw (salt env))]).
Proof.
  destruct r; simpl.
  - unfold post_register.
    destruct (register_user env w req) as [[u w']|e] eqn:Hr; simpl; [|now left].
    destruct (register_user_ok env w req u w' Hr)
      as (pw & n & Hpw & Hn & Hne & Hex & Hid & -> & ->).
    right. split; [reflexivity|]. exists n, pw.
    destruct (jwt_sign _ _ _); simpl; auto 10.
  - left. unfold post_login.
    destruct (User.findOne _ _) as [[d|]|[]]; simpl; [|reflexivity|reflexivity].
    destruct (body_password (body req)) as [[| pw | | |]|]; simpl; try reflexivity.
    destruct (bcrypt_compare _ _); simpl; [|reflexivity].
    now destruct (jwt_sign _ _ _).
  - left. unfold get_profile.
    destruct (Js.truthy _); simpl; [|reflexivity].
    now destruct (jwt_verify _ _).
  - now left.
  - left. unfold post_post.
    destruct (Js.truthy _); simpl; [|reflexivity].
    destruct (jwt_verify _ _) as [info|e]; simpl; [|reflexivity].
    destruct (upload env w req) as [[newPath w1]|err] eqn:Hup; simpl; [|reflexivity].
    destruct (upload_ok env w w1 req newPath Hup) as (Hu & _).
    destruct (fields req) as [[[t s0] c]|[]]; simpl; [|exact Hu].
    now destruct (Post.create _ _ _ _ _ _ _ _) as [[p ps]|e].
  - now left.
  - left. unfold get_post_id.
    destruct (String.eqb _ _); simpl; [reflexivity|].
    now destruct (Post.findById _ _) as [[p|]|e].
  - left. unfold put_post_id, put_post_id_renamed.
    destruct (upload env w req) as [[newPath w1]|err] eqn:Hup; simpl; [|reflexivity].
    destruct (upload_ok env w w1 req newPath Hup) as (Hu & _).
    destruct (Js.truthy _); simpl; [|exact Hu].
    destruct (jwt_verify _ _) as [info|e]; simpl; [|exact Hu].
    destruct (Post.findById _ _) as [[post|]|e]; simpl; try exact Hu.
    destruct (ownership post info); simpl; try exact Hu.
    destruct (fields req) as [[[t s0] c]|[]]; simpl; exact Hu.
Qed.

(** The only writes to [posts] are the insert of POST /post, under the
    identity of the verified token, and the save of PUT /post/:id, by the
    author of the post saved. *)
Lemma handle_posts_cases (r : Route) (env : Env) (w : World) (req : Request) :
  posts (world (handle secret r env w req)) = posts w \/
  (r = POST_post /\
   exists token info a title summary content,
     Js.truthy (cookies_token req) = Some token /\
     jwt_verify token secret = Ok info /\
     castObjectId (userId (claim info)) = Some a /\
     fields req = Ok (title, summary, content) /\
     existsb (fun p => ObjectId_eqb (Post._id p) (newObjectId env)) (posts w) = false /\
     posts (world (handle secret r env w req))
     = posts w ++ [Post.mk (newObjectId env) title summary content None
                     (option_map (fun f => Js.replace "uploads/" "" (newPath_of f))
                                 (file req))
                     (Some a) (now env) (now env)]) \/
  (r = PUT_post_id /\
   exists token info oid post a saved,
     Js.truthy (cookies_token req) = Some token /\
     jwt_verify token secret = Ok info /\
     castObjectId (params_id req) = Some oid /\
     find (fun p => ObjectId_eqb (Post._id p) oid) (posts w) = Some post /\
     Post.author post = Some a /\
     userId (claim info) = toString a /\
     Post._id saved = Post._id post /\
     Post.author saved = Post.author post /\
     Post.createdAt saved = Post.createdAt post /\
     posts (world (handle secret r env w req)) = Post.replaceOne saved (posts w)).
Proof.
  destruct r; simpl.
  - left. unfold post_register.
    destruct (register_user env w req) as [[u w']|e] eqn:Hr; simpl; [|reflexivity].
    destruct (register_user_ok env w req u w' Hr) as (pw & n & _ & _ & _ & _ & _ & _ & ->).
    now destruct (jwt_sign _ _ _).
  - left. unfold post_login.
    destruct (User.findOne _ _) as [[d|]|[]]; simpl; [|reflexivity|reflexivity].
    destruct (body_password (body req)) as [[| pw | | |]|]; simpl; try reflexivity.
    destruct (bcrypt_compare _ _); simpl; [|reflexivity].
    now destruct (jwt_sign _ _ _).
  - left. unfold get_profile.
    destruct (Js.truthy _); simpl; [|reflexivity].
    now destruct (jwt_verify _ _).
  - now left.
  - unfold post_post.
    destruct (Js.truthy (cookies_token req)) as [token|] eqn:Ht; simpl; [|now left].
    destruct (jwt_verify token secret) as [info|e] eqn:Hv; simpl; [|now left].
    destruct (upload env w req) as [[newPath w1]|err] eqn:Hup; simpl; [|now left].
    destruct (upload_ok env w w1 req newPath Hup) as (_ & Hp & Hnp).
    destruct (fields req) as [[[t s0] c]|[]] eqn:Hfs; simpl; [|now left].
    unfold Post.create. rewrite Hp.
    destruct (castObjectId (userId (claim info))) as [a|] eqn:Hc; simpl; [|now left].
    destruct (existsb _ (posts w)) eqn:Hex; simpl; [now left|].
    right. left. split; [reflexivity|].
    exists token, info, a, t, s0, c. subst newPath.
    rewrite option_map_map_newPath. auto 10.
  - now left.
  - left. unfold get_post_id.
    destruct (String.eqb _ _); simpl; [reflexivity|].
    now destruct (Post.findById _ _) as [[p|]|e].
  - unfold put_post_id, put_post_id_renamed, Post.findById.
    destruct (upload env w req) as [[newPath w1]|err] eqn:Hup; simpl; [|now left].
    destruct (upload_ok env w w1 req newPath Hup) as (_ & Hp & _).
    rewrite Hp.
    destruct (Js.truthy (cookies_token req)) as [token|] eqn:Ht; simpl; [|now left].
    destruct (jwt_verify token secret) as [info|e] eqn:Hv; simpl; [|now left].
    destruct (castObjectId (params_id req)) as [oid|] eqn:Hc; simpl; [|now left].
    destruct (find _ (posts w)) as [post|] eqn:Hf; simpl; [|now left].
    unfold ownership.
    destruct (Post.author post) as [a|] eqn:Ha; simpl; [|now left].
    destruct (String.eqb_spec (toString a) (userId (claim info))) as [He|Hne];
      simpl; [|now left].
    destruct (fields req) as [[[t s0] c]|[]]; simpl; [|now left].
    right. right. split; [reflexivity|].
    unfold Post.save. simpl.
    match goal with
    | |- context [Post.replaceOne ?s (posts w)] =>
        exists token, info, oid, post, a, s
    end.
    repeat split;
      first [ assumption
            | symmetry; assumption
            | destruct (Post.isModified _ _); unfold assign; simpl; auto ].
Qed.

(** ** What every request preserves *)

(** Posts get their author from the verified token when they are created
    and keep it when they are updated: if every stored post has an author
    before a request, every stored post has one after it. *)
Lemma handle_posts_authored (r : Route) (env : Env) (w : World) (req : Request) :
  Forall (fun p => Post.author p <> None) (posts w) ->
  Forall (fun p => Post.author p <> None) (posts (world (handle secret r env w req))).
Proof.
  intros Hall.
  destruct (handle_posts_cases r env w req)
    as [-> | [(_ & token & info & a & t & s0 & c & _ & _ & _ & _ & _ & ->)
             | (_ & token & info & oid & post & a & saved & _ & _ & _ & _ & Ha & _
                  & _ & Hsa & _ & ->)]].
  - exact Hall.
  - apply Forall_app. split; [exact Hall|].
    constructor; [simpl; discriminate|constructor].
  - apply Forall_replaceOne; [|exact Hall]. rewrite Hsa, Ha. discriminate.
Qed.

(** The unique index of [userName]: if no two stored users share a name
    before a request, none do after it. *)
Lemma handle_userName_unique (r : Route) (env : Env) (w : World) (req : Request) :
  NoDup (map User.userName (users w)) ->
  NoDup (map User.userName (users (world (handle secret r env w req)))).
Proof.
  intros Hnd.
  destruct (handle_users_cases r env w req)
    as [-> | (_ & n & pw & _ & _ & _ & Hex & _ & ->)]; [exact Hnd|].
  rewrite map_app. simpl.
  apply Permutation_NoDup with (l := n :: map User.userName (users w)).
  - apply Permutation_cons_append.
  - constructor; [|exact Hnd].
    intros Hin. apply in_map_iff in Hin. destruct Hin as (v & Hv & Hin).
    assert (Htrue : existsb (fun v => String.eqb (User.userName v) n) (users w) = true).
    { apply existsb_exists. exists v. split; [exact Hin|now apply String.eqb_eq]. }
    congruence.
Qed.

(** Both hold of every world the server reaches from empty collections. *)
Lemma serve_invariants (rs : list (Route * Env * Request)) (w : World) :
  Forall (fun p => Post.author p <> None) (posts w) ->
  NoDup (map User.userName (users w)) ->
  Forall (fun p => Post.author p <> None) (posts (serve secret rs w)) /\
  NoDup (map User.userName (users (serve secret rs w))).
Proof.
  revert w. induction rs as [|[[r env] req] rest IH]; intros w Hp Hu; simpl.
  - now split.
  - apply IH.
    + now apply handle_posts_authored.
    + now apply handle_userName_unique.
Qed.

(** ** Invariants of the collections over any sequence of requests *)

(** X1: no sequence of requests makes two stored users share a
    [userName]. *)
Theorem serve_userName_unique (rs : list (Route * Env * Request)) (w : World) :
  NoDup (map User.userName (users w)) ->
  NoDup (map User.userName (users (serve secret rs w))).
Proof.
  revert w. induction rs as [|[[r env] req] rest IH]; intros w Hw; simpl.
  - exact Hw.
  - apply IH. now apply handle_userName_unique.
Qed.

(** X2: no sequence of requests leaves a stored post without author. *)
Theorem serve_posts_authored (rs : list (Route * Env * Request)) (w : World) :
  Forall (fun p => Post.author p <> None) (posts w) ->
  Forall (fun p => Post.author p <> None) (posts (serve secret rs w)).
Proof.
  revert w. induction rs as [|[[r env] req] rest IH]; intros w Hw; simpl.
  - exact Hw.
  - apply IH. now apply handle_posts_authored.
Qed.

Lemma serve_users_prefix (rs : list (Route * Env * Request)) (w : World) :
  exists added, users (serve secret rs w) = users w ++ added.
Proof.
  revert w. induction rs as [|[[r env] req] rest IH]; intros w; simpl.
  - exists []. now rewrite app_nil_r.
  - destruct (IH (world (handle secret r env w req))) as [added ->].
    destruct (handle_users_cases r env w req)
      as [-> | (_ & n & pw & _ & _ & _ & _ & _ & ->)].
    + now exists added.
    + rewrite <- app_assoc. now eexists.
Qed.

(** X3: no route deletes or rewrites a user: after any sequence of requests
    every user stored before is still stored, unchanged and at the same
    place in the collection. *)
Theorem serve_users_kept (rs : list (Route * Env * Request)) (w : World)
    (i : nat) (u : User.doc) :
  nth_error (users w) i = Some u ->
  nth_error (users (serve secret rs w)) i = Some u.
Proof.
  intros Hu. destruct (serve_users_prefix rs w) as [added ->].
  rewrite nth_error_app1; [exact Hu|].
  apply nth_error_Some. congruence.
Qed.

Lemma serve_posts_prefix (rs : list (Route * Env * Request)) (w : World) :
  exists added,
    map (fun p => (Post._id p, Post.author p, Post.createdAt p))
        (posts (serve secret rs w))
    = map (fun p => (Post._id p, Post.author p, Post.createdAt p)) (posts w ++ added).
Proof.
  revert w. induction rs as [|[[r env] req] rest IH]; intros w; simpl.
  - exists []. now rewrite app_nil_r.
  - destruct (IH (world (handle secret r env w req))) as [added ->].
    destruct (handle_posts_cases r env w req)
      as [-> | [(_ & token & info & a & t & s0 & c & _ & _ & _ & _ & _ & ->)
               | (_ & token & info & oid & post & a & saved & _ & _ & _ & Hf & _ & _
                    & Hsid & Hsa & Hsc & ->)]].
    + now exists added.
    + rewrite <- app_assoc. now eexists.
    + exists added.
      destruct (replaceOne_found oid post saved (posts w) Hsid Hf)
        as (before & after & -> & -> & _).
      rewrite !map_app. simpl. now rewrite Hsid, Hsa, Hsc.
Qed.

(** X4: no route deletes a post or changes the [_id], the [author] or the
    [createdAt] of one: after any sequence of requests a post stored before
    is still stored at the same place with these three as they were. *)
Theorem serve_posts_kept (rs : list (Route * Env * Request)) (w : World)
    (i : nat) (p : Post.doc) :
  nth_error (posts w) i = Some p ->
  exists p',
    nth_error (posts (serve secret rs w)) i = Some p' /\
    Post._id p' = Post._id p /\
    Post.author p' = Post.author p /\
    Post.createdAt p' = Post.createdAt p.
Proof.
  intros Hp. destruct (serve_posts_prefix rs w) as [added Hmap].
  assert (Hk : nth_error
                 (map (fun p => (Post._id p, Post.author p, Post.createdAt p))
                      (posts (serve secret rs w))) i
               = Some (Post._id p, Post.author p, Post.createdAt p)).
  { rewrite Hmap, nth_error_map, nth_error_app1.
    - now rewrite Hp.
    - apply nth_error_Some. congruence. }
  rewrite nth_error_map in Hk.
  destruct (nth_error (posts (serve secret rs w)) i) as [p'|]; [|discriminate].
  exists p'. simpl in Hk. injection Hk as H1 H2 H3. auto.
Qed.

(** X5: a stored post is changed by a request only if the request is a
    PUT /post/:id carrying a token that verifies to the identity of the
    post's author. *)
Theorem post_changed_only_by_author (r : Route) (env : Env) (w : World)
    (req : Request) (i : nat) (p p' : Post.doc) :
  nth_error (posts w) i = Some p ->
  nth_error (posts (world (handle secret r env w req))) i = Some p' ->
  p' <> p ->
  r = PUT_post_id /\
  castObjectId (params_id req) = Some (Post._id p) /\
  exists token info a,
    Js.truthy (cookies_token req) = Some token /\
    jwt_verify token secret = Ok info /\
    Post.author p = Some a /\
    userId (claim info) = toString a.
Proof.
  intros Hp Hp' Hne.
  destruct (handle_posts_cases r env w req)
    as [Heq | [(_ & token & info & a & t & s0 & c & _ & _ & _ & _ & _ & Heq)
              | (Hr & token & info & oid & post & a & saved & Ht & Hv & Hc & Hf & Ha & Hu
                    & Hsid & _ & _ & Heq)]];
    rewrite Heq in Hp'.
  - congruence.
  - rewrite nth_error_app1 in Hp' by (apply nth_error_Some; congruence). congruence.
  - assert (Hpost : p = post).
    { destruct (replaceOne_found oid post saved (posts w) Hsid Hf)
        as (before & after & Hw & Hr' & _).
      rewrite Hr' in Hp'. rewrite Hw in Hp.
      destruct (Nat.lt_ge_cases i (length before)) as [Hlt|Hge].
      - rewrite nth_error_app1 in Hp, Hp' by exact Hlt. congruence.
      - rewrite nth_error_app2 in Hp, Hp' by exact Hge.
        destruct (i - length before) as [|k]; simpl in *; congruence. }
    subst p. split; [exact Hr|]. split.
    + apply find_some in Hf. destruct Hf as [_ Hf].
      apply ObjectId_eqb_eq in Hf. now rewrite Hf.
    + exists token, info, a. auto.
Qed.

(** ** Logging in *)

Lemma existsb_matches_string (n : string) (l : list User.doc) :
  existsb (fun u => matches (JString n) (User.userName u)) l
  = existsb (fun u => String.eqb (User.userName u) n) l.
Proof.
  induction l as [|u l IH]; simpl; [reflexivity|].
  now rewrite matches_string, IH.
Qed.

(** X6: POST /login sets a cookie only on a request whose [userName],
    taken as the filter of [findOne], is accepted as a filter and selects a
    stored user that satisfies it, and whose password is a string that
    [bcrypt.compare] accepts against that user's stored hash; the response
    is then 200, and when the [userName] of the request is a string it is
    that user's name. *)
Theorem post_login_sound (env : Env) (w : World) (req : Request)
    (r : Response) (c : Cookie) :
  response (post_login secret env w req) = Some r ->
  cookie r = Some c ->
  status r = 200 /\
  exists u pw v,
    body_userName (body req) = Some v /\
    filters v = true /\
    User.findOne (Some v) (users w) = Ok (Some u) /\
    In u (users w) /\
    matches v (User.userName u) = true /\
    body_password (body req) = Some (JString pw) /\
    bcrypt_compare pw (User.password u) = true /\
    (forall n, v = JString n -> User.userName u = n).
Proof.
  unfold post_login.
  destruct (User.findOne _ _) as [[u|]|[]] eqn:Hu; simpl;
    [|intros [= <-]; discriminate|discriminate].
  destruct (body_password (body req)) as [[| pw | | |]|]; simpl; try discriminate.
  destruct (bcrypt_compare pw (User.password u)) eqn:Hc; simpl;
    [|intros [= <-]; discriminate].
  destruct (jwt_sign _ _ _); simpl; intros [= <-]; simpl; [|discriminate].
  intros _. split; [reflexivity|].
  destruct (findOne_found _ _ _ Hu) as (v & Hv & Hf & Hin & Hm).
  exists u, pw, v. rewrite Hv in Hu.
  repeat split; try assumption; try reflexivity.
  intros n ->. rewrite matches_string in Hm. now apply String.eqb_eq.
Qed.

(** X7: POST /login with the name of a stored user and a password that
    [bcrypt.compare] refuses is answered 400 "Invalid password", sets no
    cookie and changes nothing. *)
Theorem post_login_wrong_password (env : Env) (w : World) (req : Request)
    (u : User.doc) (pw : string) :
  User.findOne (body_userName (body req)) (users w) = Ok (Some u) ->
  body_password (body req) = Some (JString pw) ->
  bcrypt_compare pw (User.password u) = false ->
  post_login secret env w req
  = respond w (mkResponse 400 None (error_json "Invalid password")).
Proof.
  intros Hu Hp Hc. unfold post_login. now rewrite Hu, Hp, Hc.
Qed.

(** What a 200 of POST /register means. *)
Lemma post_register_success (env : Env) (w : World) (req : Request) (r : Response) :
  response (post_register secret env w req) = Some r ->
  status r = 200 ->
  exists n pw tok,
    cast_path (body_userName (body req)) = Ok (Some n) /\
    body_password (body req) = Some (JString pw) /\
    existsb (fun u => String.eqb (User.userName u) n) (users w) = false /\
    jwt_sign (mkClaim (toString (newObjectId env)) n) secret (seconds env) = Ok tok /\
    r = mkResponse 200 (Some (mkCookie "token" tok true (Some "strict")))
          (user_json (newObjectId env) (Some n)) /\
    world (post_register secret env w req)
    = mkWorld (users w ++ [User.mk (newObjectId env) n (bcrypt_hash pw (salt env))])
              (posts w) (renames w).
Proof.
  unfold post_register.
  destruct (register_user env w req) as [[u w']|e] eqn:Hr; simpl;
    [|intros [= <-]; discriminate].
  destruct (register_user_ok env w req u w' Hr)
    as (pw & n & Hpw & Hn & _ & Hex & _ & -> & ->).
  simpl.
  destruct (jwt_sign _ _ _) as [tok|e] eqn:Hs; simpl;
    intros [= <-]; simpl; [|discriminate].
  intros _. exists n, pw, tok. auto 10.
Qed.

(** X8: provided [bcrypt.compare] accepts a password against its own hash,
    a user who registered under a string as [userName] with 200 can log in
    with the same name and password after any sequence of further
    requests: POST /login answers 200 with the same [{ id, userName }] and
    sets the token it signs. *)
Theorem register_then_login (env env' : Env) (w : World) (req : Request)
    (r : Response) (rs : list (Route * Env * Request)) (n tok : string) :
  (forall pw s, bcrypt_compare pw (bcrypt_hash pw s) = true) ->
  response (post_register secret env w req) = Some r ->
  status r = 200 ->
  body_userName (body req) = Some (JString n) ->
  jwt_sign (mkClaim (toString (newObjectId env)) n) secret (seconds env') = Ok tok ->
  let w' := serve secret rs (world (post_register secret env w req)) in
  post_login secret env' w' req
  = respond w' (mkResponse 200 (Some (mkCookie "token" tok false None)) (sent r)).
Proof.
  intros Hlaw Hr Hs Hn Hsign.
  destruct (post_register_success env w req r Hr Hs)
    as (n' & pw & tok0 & Hn' & Hpw & Hex & _ & -> & Hw).
  assert (n' = n).
  { rewrite Hn in Hn'. simpl in Hn'. rewrite castString_string in Hn'. congruence. }
  subst n'.
  destruct (serve_users_prefix rs (world (post_register secret env w req)))
    as [added Hkept].
  simpl. unfold post_login, User.findOne.
  rewrite Hn, filters_string, Hkept, Hw. simpl.
  rewrite (find_app_old _ _ added
             (User.mk (newObjectId env) n (bcrypt_hash pw (salt env)))).
  - simpl. now rewrite Hpw, Hlaw, Hsign.
  - apply find_app_new.
    + now rewrite existsb_matches_string.
    + simpl. rewrite matches_string. apply String.eqb_refl.
Qed.

(** ** Writing and reading posts *)

(** What a 200 of POST /post means. *)
Lemma post_post_success (env : Env) (w : World) (req : Request) (r : Response) :
  response (post_post secret env w req) = Some r ->
  status r = 200 ->
  exists token info a title summary content,
    Js.truthy (cookies_token req) = Some token /\
    jwt_verify token secret = Ok info /\
    castObjectId (userId (claim info)) = Some a /\
    fields req = Ok (title, summary, content) /\
    existsb (fun p => ObjectId_eqb (Post._id p) (newObjectId env)) (posts w) = false /\
    let postDoc :=
      Post.mk (newObjectId env) title summary content None
        (option_map (fun f => Js.replace "uploads/" "" (newPath_of f)) (file req))
        (Some a) (now env) (now env) in
    r = json (post_json (plain_author postDoc) postDoc) /\
    users (world (post_post secret env w req)) = users w /\
    posts (world (post_post secret env w req)) = posts w ++ [postDoc].
Proof.
  unfold post_post.
  destruct (Js.truthy (cookies_token req)) as [token|] eqn:Ht; simpl;
    [|intros [= <-]; discriminate].
  destruct (jwt_verify token secret) as [info|e] eqn:Hv; simpl;
    [|intros [= <-]; discriminate].
  destruct (upload env w req) as [[newPath w1]|err] eqn:Hup; simpl; [|discriminate].
  destruct (upload_ok env w w1 req newPath Hup) as (Hu & Hp & ->).
  destruct (fields req) as [[[t s0] c]|[]] eqn:Hfs; simpl; [|discriminate].
  unfold Post.create. rewrite Hp, option_map_map_newPath.
  destruct (castObjectId (userId (claim info))) as [a|] eqn:Hc; simpl; [|discriminate].
  destruct (existsb _ (posts w)) eqn:Hex; simpl; [discriminate|].
  intros [= <-] _. exists token, info, a, t, s0, c. auto 10.
Qed.

(** X9: the post that POST /post stores has the identity of the verified
    token as its author, whatever the body says, the title, summary and
    content of the body as the schema casts them, the renamed upload
    (without "uploads/") as cover or [null] when there is no file, and the
    clock as both dates; the response is that post. *)
Theorem post_post_created (env : Env) (w : World) (req : Request) (r : Response) :
  response (post_post secret env w req) = Some r ->
  status r = 200 ->
  exists token info postDoc,
    Js.truthy (cookies_token req) = Some token /\
    jwt_verify token secret = Ok info /\
    posts (world (post_post secret env w req)) = posts w ++ [postDoc] /\
    r = json (post_json (plain_author postDoc) postDoc) /\
    Post._id postDoc = newObjectId env /\
    castObjectId (userId (claim info)) = Post.author postDoc /\
    cast_path (body_title (body req)) = Ok (Post.title postDoc) /\
    cast_path (body_summary (body req)) = Ok (Post.summary postDoc) /\
    cast_path (body_content (body req)) = Ok (Post.content postDoc) /\
    Post.cover postDoc
    = option_map (fun f => Js.replace "uploads/" "" (newPath_of f)) (file req) /\
    Post.createdAt postDoc = now env /\
    Post.updatedAt postDoc = now env.
Proof.
  intros Hr Hs.
  destruct (post_post_success env w req r Hr Hs)
    as (token & info & a & t & s0 & c & Ht & Hv & Hc & Hfs & _ & Hj & _ & Hp).
  unfold fields in Hfs.
  destruct (cast_path (body_title (body req))) as [t'|[]]; [|discriminate].
  destruct (cast_path (body_summary (body req))) as [s'|[]]; [|discriminate].
  destruct (cast_path (body_content (body req))) as [c'|[]]; [|discriminate].
  injection Hfs as -> -> ->.
  exists token, info. eexists. repeat split; try eassumption; reflexivity.
Qed.

(** X10: a post created with 200 can be read back: provided the generated
    ObjectId casts from its own text to itself, GET /post/:id with that id
    answers, after the creation, with the created post, its author
    populated. *)
Theorem post_post_then_get_post_id (env : Env) (w : World) (req req' : Request)
    (r : Response) :
  response (post_post secret env w req) = Some r ->
  status r = 200 ->
  castObjectId (toString (newObjectId env)) = Some (newObjectId env) ->
  toString (newObjectId env) <> "" ->
  params_id req' = toString (newObjectId env) ->
  let w' := world (post_post secret env w req) in
  exists postDoc,
    r = json (post_json (plain_author postDoc) postDoc) /\
    get_post_id w' req' = respond w' (json (post_json (populate (users w') postDoc) postDoc)).
Proof.
  intros Hr Hs Hcast Hne Hid.
  destruct (post_post_success env w req r Hr Hs)
    as (token & info & a & t & s0 & c & Ht & Hv & Hc & Hfs & Hex & Hj & Hu & Hp).
  simpl. eexists. split; [exact Hj|].
  unfold get_post_id, Post.findById.
  apply String.eqb_neq in Hne.
  rewrite Hid, Hne, Hcast, Hp.
  rewrite find_app_new; [reflexivity|exact Hex|]. simpl. apply ObjectId_eqb_refl.
Qed.

Lemma sort_desc_newest (p : Post.doc) (l : list Post.doc) :
  Forall (fun q => (Post.createdAt q < Post.createdAt p)%Z) l ->
  Post.sort_desc (l ++ [p]) = p :: Post.sort_desc l.
Proof.
  unfold Post.sort_desc. induction 1 as [|q l Hq Hl IH]; simpl; [reflexivity|].
  rewrite IH. simpl.
  destruct (Z.leb_spec (Post.createdAt p) (Post.createdAt q)); [lia|reflexivity].
Qed.

(** X11: a post created with 200 at a clock later than the [createdAt] of
    every stored post is the first post of GET /post afterwards, followed
    by the 19 newest of the posts stored before. *)
Theorem post_post_listed_first (env : Env) (w : World) (req req' : Request)
    (r : Response) :
  response (post_post secret env w req) = Some r ->
  status r = 200 ->
  Forall (fun q => (Post.createdAt q < now env)%Z) (posts w) ->
  let w' := world (post_post secret env w req) in
  exists postDoc,
    r = json (post_json (plain_author postDoc) postDoc) /\
    get_post w' req'
    = respond w'
        (json (JArray
           (post_json (populate (users w') postDoc) postDoc
            :: map (fun p => post_json (populate (users w') p) p)
                   (firstn 19 (Post.sort_desc (posts w)))))).
Proof.
  intros Hr Hs Hold.
  destruct (post_post_success env w req r Hr Hs)
    as (token & info & a & t & s0 & c & Ht & Hv & Hc & Hfs & Hex & Hj & Hu & Hp).
  simpl. eexists. split; [exact Hj|].
  unfold get_post. rewrite Hp, sort_desc_newest by exact Hold. reflexivity.
Qed.

(** X12: the cover after an update by the author, when the file system
    lets the upload be renamed and the three fields of the body are cast:
    the renamed upload (without "uploads/") when the request has a file,
    the cover the post had when it has none; the [file] path is never
    touched. *)
Theorem put_post_id_cover (env : Env) (w : World) (req : Request)
    (token : string) (info : Info) (post : Post.doc) (a : ObjectId)
    (title summary content : option string) :
  (forall f, file req = Some f -> renames_to env (path f) (newPath_of f) = true) ->
  fields req = Ok (title, summary, content) ->
  cookies_token req = Some token ->
  jwt_verify token secret = Ok info ->
  Post.findById (params_id req) (posts w) = Ok (Some post) ->
  Post.author post = Some a ->
  userId (claim info) = toString a ->
  exists saved,
    Post.findById (params_id req) (posts (world (put_post_id secret env w req)))
    = Ok (Some saved) /\
    Post.cover saved
    = match file req with
      | Some f => Some (Js.replace "uploads/" "" (newPath_of f))
      | None => Post.cover post
      end /\
    Post.file saved = Post.file post.
Proof.
  intros Hok Hfs Hc Hv Hf Ha He.
  destruct (upload_renamed env w req Hok) as [w1 Hup].
  destruct (upload_ok env w w1 req _ Hup) as (_ & Hp & _).
  pose proof (put_post_id_loaded secret env w w1 req _ token info post Hup Hc Hv Hf)
    as Heq.
  assert (Ho : ownership post info = Allow).
  { unfold ownership. rewrite Ha, He. now rewrite String.eqb_refl. }
  rewrite Ho, Hfs in Heq. rewrite Heq. clear Heq.
  unfold Post.findById in *.
  destruct (castObjectId (params_id req)) as [oid|] eqn:Hcast; [|discriminate].
  injection Hf as Hf.
  unfold Post.save. simpl. rewrite Hp.
  eexists. split; [f_equal; f_equal; apply find_replaceOne with (old := post);
                   [|exact Hf]; now destruct (Post.isModified _ _)|].
  destruct (file req); now destruct (Post.isModified _ _).
Qed.

(** X13: whoever created a post can update it: provided the ObjectId casts
    keep the text they are given, a PUT /post/:id on the created post with
    the token that created it, whose upload (if any) the file system lets
    be renamed and whose three fields are cast, is answered with the saved
    post, which has the title of the update and the author it was created
    with. *)
Theorem creator_can_update (env env' : Env) (w : World) (req req' : Request)
    (r : Response) (token : string) (info : Info) (a : ObjectId)
    (title summary content : option string) :
  cookies_token req = Some token ->
  jwt_verify token secret = Ok info ->
  response (post_post secret env w req) = Some r ->
  status r = 200 ->
  castObjectId (userId (claim info)) = Some a ->
  toString a = userId (claim info) ->
  castObjectId (toString (newObjectId env)) = Some (newObjectId env) ->
  cookies_token req' = Some token ->
  params_id req' = toString (newObjectId env) ->
  (forall f, file req' = Some f -> renames_to env' (path f) (newPath_of f) = true) ->
  fields req' = Ok (title, summary, content) ->
  let w' := world (post_post secret env w req) in
  exists saved,
    response (put_post_id secret env' w' req')
    = Some (json (post_json (plain_author saved) saved)) /\
    Post._id saved = newObjectId env /\
    Post.title saved = title /\
    Post.author saved = Some a.
Proof.
  intros Hc Hv Hr Hs Ha Hta Hid Hc' Hp Hok Hfs'.
  destruct (post_post_success env w req r Hr Hs)
    as (token0 & info0 & a0 & t & s0 & c & Ht & Hv0 & Ha0 & _ & Hex & _ & _ & Hposts).
  apply truthy_Some in Ht. destruct Ht as [Ht _].
  assert (token0 = token) by congruence. subst token0.
  assert (info0 = info) by congruence. subst info0.
  assert (a0 = a) by congruence. subst a0.
  cbv zeta in Hposts.
  set (postDoc := Post.mk (newObjectId env) t s0 c None
                    (option_map (fun f => Js.replace "uploads/" "" (newPath_of f))
                                (file req))
                    (Some a) (now env) (now env)) in *.
  set (w' := world (post_post secret env w req)) in *.
  assert (Hf : Post.findById (params_id req') (posts w') = Ok (Some postDoc)).
  { unfold Post.findById. rewrite Hp, Hid, Hposts. f_equal. f_equal.
    apply find_app_new; [exact Hex|]. apply ObjectId_eqb_refl. }
  destruct (upload_renamed env' w' req' Hok) as [w1 Hup].
  pose proof (put_post_id_loaded secret env' w' w1 req' _ token info postDoc
                Hup Hc' Hv Hf) as Heq.
  assert (Ho : ownership postDoc info = Allow).
  { unfold ownership. simpl. now rewrite Hta, String.eqb_refl. }
  rewrite Ho, Hfs' in Heq. cbv zeta. rewrite Heq.
  set (new := assign title summary content (option_map newPath_of (file req')) postDoc).
  pose proof (save_id (now env') postDoc new (posts w1)) as Hsid.
  pose proof (save_fields (now env') postDoc new (posts w1)) as Hsf.
  destruct (Post.save _ _ _ _) as [saved ps]. simpl in *.
  destruct Hsf as (Htitle & _ & _ & _ & Hau & _).
  exists saved. auto.
Qed.

(** X14: PUT /post/:id with a token that verifies and an id under which no
    post is stored is answered 404 "Post not found" and writes to neither
    collection, when the file system lets its upload, if any, be renamed. *)
Theorem put_post_id_not_found (env : Env) (w : World) (req : Request)
    (token : string) (info : Info) :
  (forall f, file req = Some f -> renames_to env (path f) (newPath_of f) = true) ->
  Js.truthy (cookies_token req) = Some token ->
  jwt_verify token secret = Ok info ->
  Post.findById (params_id req) (posts w) = Ok None ->
  response (put_post_id secret env w req)
  = Some (mkResponse 404 None (error_json "Post not found")) /\
  users (world (put_post_id secret env w req)) = users w /\
  posts (world (put_post_id secret env w req)) = posts w.
Proof.
  intros Hok Ht Hv Hf.
  destruct (upload_renamed env w req Hok) as [w1 Hup].
  destruct (upload_ok env w w1 req _ Hup) as (Hu & Hp & _).
  unfold put_post_id, put_post_id_renamed.
  rewrite Hup, Ht, Hv, Hp, Hf. simpl. auto.
Qed.

(** ** What the routes never do *)

(** X15: a cookie is set only by POST /register, POST /login and
    POST /logout, and it is always the cookie [token]; no other route, and
    no response with a status other than 200, sets one. *)
Theorem cookie_only_from_session_routes (r : Route) (env : Env) (w : World)
    (req : Request) (resp : Response) (c : Cookie) :
  response (handle secret r env w req) = Some resp ->
  cookie resp = Some c ->
  (r = POST_register \/ r = POST_login \/ r = POST_logout) /\
  name c = "token" /\
  status resp = 200.
Proof.
  destruct r; simpl.
  - unfold post_register.
    destruct (register_user _ _ _) as [[u w']|e]; simpl;
      [|intros [= <-]; discriminate].
    destruct (jwt_sign _ _ _); simpl; intros [= <-]; simpl; [|discriminate].
    intros [= <-]. auto.
  - unfold post_login.
    destruct (User.findOne _ _) as [[d|]|[]]; simpl;
      [|intros [= <-]; discriminate|discriminate].
    destruct (body_password (body req)) as [[| pw | | |]|]; simpl; try discriminate.
    destruct (bcrypt_compare _ _); simpl; [|intros [= <-]; discriminate].
    destruct (jwt_sign _ _ _); simpl; intros [= <-]; simpl; [|discriminate].
    intros [= <-]. auto.
  - unfold get_profile.
    destruct (Js.truthy _); simpl; [|intros [= <-]; discriminate].
    destruct (jwt_verify _ _); simpl; intros [= <-]; discriminate.
  - unfold post_logout. simpl. intros [= <-]; simpl. intros [= <-]. auto.
  - unfold post_post.
    destruct (Js.truthy _); simpl; [|intros [= <-]; discriminate].
    destruct (jwt_verify _ _); simpl; [|intros [= <-]; discriminate].
    destruct (upload env w req) as [[newPath w1]|err]; simpl; [|discriminate].
    destruct (fields req) as [[[t s0] c0]|[]]; simpl; [|discriminate].
    destruct (Post.create _ _ _ _ _ _ _ _) as [[p ps]|e]; simpl;
      [intros [= <-]; discriminate|discriminate].
  - unfold get_post. simpl. intros [= <-]; discriminate.
  - unfold get_post_id.
    destruct (String.eqb _ _); simpl; [intros [= <-]; discriminate|].
    destruct (Post.findById _ _) as [[p|]|e]; simpl; intros [= <-]; discriminate.
  - unfold put_post_id, put_post_id_renamed.
    destruct (upload env w req) as [[newPath w1]|err]; simpl; [|discriminate].
    destruct (Js.truthy _); simpl; [|intros [= <-]; discriminate].
    destruct (jwt_verify _ _) as [info|e]; simpl; [|intros [= <-]; discriminate].
    destruct (Post.findById _ _) as [[post|]|e]; simpl;
      try (intros [= <-]; discriminate).
    destruct (ownership post info); simpl; try (intros [= <-]; discriminate).
    destruct (fields req) as [[[t s0] c0]|[]]; simpl;
      intros [= <-]; discriminate.
Qed.

(** X16: POST /login, GET /profile, POST /logout, GET /post and
    GET /post/:id write nothing: the collections and the files are after
    the request what they were before it. *)
Theorem reading_routes_write_nothing (r : Route) (env : Env) (w : World)
    (req : Request) :
  r = POST_login \/ r = GET_profile \/ r = POST_logout \/ r = GET_post \/
  r = GET_post_id ->
  world (handle secret r env w req) = w.
Proof.
  intros [-> | [-> | [-> | [-> | ->]]]]; simpl.
  - unfold post_login.
    destruct (User.findOne _ _) as [[d|]|[]]; simpl; [|reflexivity|reflexivity].
    destruct (body_password (body req)) as [[| pw | | |]|]; simpl; try reflexivity.
    destruct (bcrypt_compare _ _); simpl; [|reflexivity].
    now destruct (jwt_sign _ _ _).
  - unfold get_profile.
    destruct (Js.truthy _); simpl; [|reflexivity].
    now destruct (jwt_verify _ _).
  - reflexivity.
  - reflexivity.
  - unfold get_post_id.
    destruct (String.eqb _ _); simpl; [reflexivity|].
    now destruct (Post.findById _ _) as [[p|]|e].
Qed.

End Further.

(** ** The file name of an upload *)

Lemma split_nonempty (sep : ascii) (s : string) : Js.split sep s <> [].
Proof.
  destruct s as [|c r]; simpl; [discriminate|].
  destruct (Ascii.eqb c sep); [discriminate|].
  destruct (Js.split sep r); discriminate.
Qed.

Lemma length_append (a b : string) :
  String.length (a ++ b) = String.length a + String.length b.
Proof.
  induction a as [|c a IH]; simpl; [reflexivity|]. now rewrite IH.
Qed.

Lemma append_assoc (a b c : string) : ((a ++ b) ++ c = a ++ (b ++ c))%string.
Proof.
  induction a as [|x a IH]; simpl; [reflexivity|]. now rewrite IH.
Qed.

(** [split] loses nothing and cuts at every separator: joining the parts
    with the separator gives the string back, and no part contains the
    separator. *)
Lemma split_join (sep : ascii) (s : string) :
  Js.join sep (Js.split sep s) = s /\
  Forall (fun part => Js.includes sep part = false) (Js.split sep s).
Proof.
  induction s as [|c r [IHj IHf]]; simpl.
  - split; [reflexivity|]. now constructor.
  - destruct (Ascii.eqb c sep) eqn:Hc.
    + apply Ascii.eqb_eq in Hc. subst c. split.
      * pose proof (split_nonempty sep r) as Hne.
        simpl. destruct (Js.split sep r) as [|h t]; [congruence|].
        now rewrite IHj.
      * now constructor.
    + pose proof (split_nonempty sep r) as Hne.
      destruct (Js.split sep r) as [|h t]; [congruence|]. split.
      * destruct t as [|h' t']; simpl in *; now rewrite <- IHj.
      * inversion IHf as [|? ? Hh Ht]; subst.
        constructor; [|exact Ht]. simpl. now rewrite Hc.
Qed.

(** The last part of [split], according to whether the separator occurs. *)
Lemma split_last (sep : ascii) (s : string) :
  (Js.includes sep s = false /\ Js.split sep s = [s]) \/
  (Js.includes sep s = true /\
   exists h t stem,
     Js.split sep s = h :: t /\ t <> [] /\
     s = (stem ++ String sep (last (Js.split sep s) ""))%string).
Proof.
  induction s as [|c r IH]; simpl; [now left|].
  destruct (Ascii.eqb c sep) eqn:Hc; simpl.
  - right. split; [reflexivity|].
    apply Ascii.eqb_eq in Hc. subst c.
    pose proof (split_nonempty sep r) as Hne.
    destruct IH as [[_ Hs] | (_ & h & t & stem & Hs & Ht & Hr)].
    + exists "", [r], "". rewrite Hs. simpl. repeat split; congruence.
    + exists "", (h :: t), (String sep stem). rewrite Hs in *.
      repeat split; [discriminate|].
      simpl. destruct t as [|h' t']; [congruence|].
      simpl in Hr. now rewrite Hr at 1.
  - destruct IH as [[Hi Hs] | (Hi & h & t & stem & Hs & Ht & Hr)].
    + left. rewrite Hs. auto.
    + right. split; [exact Hi|].
      rewrite Hs in *. exists (String c h), t, (String c stem).
      repeat split; [exact Ht|].
      destruct t as [|h' t']; [congruence|].
      simpl in *. now rewrite Hr at 1.
Qed.

(** X17: the extension [newPath_of] appends is what follows the last dot of
    the original name, and the whole name when it has no dot; it never
    contains a dot. *)
Theorem newPath_of_extension (f : File) :
  exists ext,
    newPath_of f = (path f ++ "." ++ ext)%string /\
    Js.includes "." ext = false /\
    (Js.includes "." (originalname f) = false -> ext = originalname f) /\
    (Js.includes "." (originalname f) = true ->
     exists stem, originalname f = (stem ++ "." ++ ext)%string).
Proof.
  exists (last (Js.split "." (originalname f)) "").
  split; [reflexivity|]. split; [|split].
  - destruct (split_join "." (originalname f)) as [_ Hall].
    pose proof (split_nonempty "." (originalname f)) as Hne.
    rewrite Forall_forall in Hall. apply Hall.
    destruct (Js.split "." (originalname f)) as [|h t]; [congruence|].
    rewrite (app_removelast_last "" (l := h :: t)) at 2 by discriminate.
    apply in_or_app. right. now left.
  - intros Hno.
    destruct (split_last "." (originalname f)) as [[_ ->] | (Hyes & _)];
      [reflexivity|congruence].
  - intros Hyes.
    destruct (split_last "." (originalname f))
      as [[Hno _] | (_ & h & t & stem & _ & _ & Hs)]; [congruence|].
    now exists stem.
Qed.

Lemma prefix_append (a b : string) : String.prefix a (a ++ b) = true.
Proof.
  induction a as [|c a IH]; simpl; [now destruct b|].
  destruct (ascii_dec c c); [exact IH|congruence].
Qed.

Lemma substring_all (s : string) : substring 0 (String.length s) s = s.
Proof.
  induction s as [|c s IH]; simpl; [reflexivity|]. now rewrite IH.
Qed.

Lemma substring_append (a b : string) (n : nat) :
  substring (String.length a) n (a ++ b) = substring 0 n b.
Proof.
  induction a as [|c a IH]; simpl; [reflexivity|exact IH].
Qed.

Lemma replace_unfold (pat rep s : string) :
  Js.replace pat rep s
  = if String.prefix pat s
    then (rep ++ substring (String.length pat) (String.length s - String.length pat) s)%string
    else match s with
         | EmptyString => EmptyString
         | String c r => String c (Js.replace pat rep r)
         end.
Proof.
  destruct s; reflexivity.
Qed.

Lemma replace_prefix (pat rep s : string) :
  Js.replace pat rep (pat ++ s) = (rep ++ s)%string.
Proof.
  rewrite replace_unfold, prefix_append, substring_append, length_append.
  replace (String.length pat + String.length s - String.length pat)
    with (String.length s) by lia.
  now rewrite substring_all.
Qed.

(** X18: when multer stored the upload under "uploads/", the cover the
    routes record is the new path without that directory: "uploads/"
    followed by the cover is the path the file was renamed to. *)
Theorem cover_of_upload (f : File) (stored : string) :
  path f = ("uploads/" ++ stored)%string ->
  ("uploads/" ++ Js.replace "uploads/" "" (newPath_of f))%string = newPath_of f.
Proof.
  intros Hp. unfold newPath_of. rewrite Hp, append_assoc.
  now rewrite replace_prefix.
Qed.

(** * Properties of the client against the server *)

Lemma property_post_json (auth : option Json) (p : Post.doc) :
  property "_id" (post_json auth p) = Some (JString (toString (Post._id p))) /\
  property "title" (post_json auth p) = option_map JString (Post.title p) /\
  property "summary" (post_json auth p) = option_map JString (Post.summary p) /\
  property "cover" (post_json auth p) = Some (nullable (Post.cover p)) /\
  property "author" (post_json auth p) = auth /\
  property "createdAt" (post_json auth p) = Some (JNumber (Post.createdAt p)).
Proof.
  unfold post_json, property.
  destruct (Post.title p), (Post.summary p), (Post.content p), (Post.file p), auth;
    simpl; auto 10.
Qed.

Section ClientProperties.

Context {JWT : JsonWebToken} {BCR : Bcrypt} {MGC : MongooseCast} {JSR : JsRuntime}.

Variable secret : string.

Lemma Post_card_to (auth : option Json) (p : Post.doc) :
  to (Post_card (post_json auth p)) = ("/post/" ++ toString (Post._id p))%string.
Proof.
  destruct (property_post_json auth p) as (Hid & _).
  unfold Post_card. cbv zeta. cbn [to]. now rewrite Hid.
Qed.

(** ** Cards *)

(** X19: the card of a post as GET /post sends it links to "/post/" and the
    post's [_id]; shows the [userName] of the stored user its author refers
    to, or "Unknown" when the post has no author, no such user is stored or
    that name is empty; and shows the upload under
    "http://localhost:4000/uploads/" when the post has a non-empty cover
    and the default picture otherwise. *)
Theorem Post_card_of_stored (us : list User.doc) (p : Post.doc) :
  let card := Post_card (post_json (populate us p) p) in
  to card = ("/post/" ++ toString (Post._id p))%string /\
  heading card = option_map JString (Post.title p) /\
  summary_text card = option_map JString (Post.summary p) /\
  author_text card
  = match Post.author p with
    | Some a =>
        match User.findById a us with
        | Some u =>
            if String.eqb (User.userName u) "" then JString "Unknown"
            else JString (User.userName u)
        | None => JString "Unknown"
        end
    | None => JString "Unknown"
    end /\
  (img_src card, img_alt card)
  = match Post.cover p with
    | Some c =>
        if String.eqb c ""
        then ("https://scienceblog.com/wp-content/uploads/2023/09/El-Gordo.jpg",
              "Default cover")
        else (("http://localhost:4000/uploads/" ++ c)%string, "Post cover")
    | None =>
        ("https://scienceblog.com/wp-content/uploads/2023/09/El-Gordo.jpg",
         "Default cover")
    end.
Proof.
  destruct (property_post_json (populate us p) p) as (Hid & Ht & Hs & Hc & Ha & _).
  unfold Post_card. cbv zeta.
  cbn [to heading summary_text author_text img_src img_alt].
  rewrite Hid, Ht, Hs, Hc, Ha. cbn [interpolate].
  repeat split.
  - unfold populate. destruct (Post.author p) as [a|]; simpl; [|reflexivity].
    destruct (User.findById a us) as [u|]; simpl; [|reflexivity].
    now destruct (String.eqb (User.userName u) "").
  - destruct (Post.cover p) as [c|]; simpl; [|reflexivity].
    now destruct (String.eqb c "").
Qed.

(** X20: after its fetch the home page shows one card for each post of the
    answer of GET /post, in that order: the 20 newest posts, the newest
    first, each linking to its post. *)
Theorem HomePage_shows_latest (w : World) (pg : Page) :
  HomePage_cards (HomePage_effect w pg)
  = map (fun p => Post_card (post_json (populate (users w) p) p))
        (firstn 20 (Post.sort_desc (posts w))) /\
  map to (HomePage_cards (HomePage_effect w pg))
  = map (fun p => ("/post/" ++ toString (Post._id p))%string)
        (firstn 20 (Post.sort_desc (posts w))).
Proof.
  assert (H1 : HomePage_cards (HomePage_effect w pg)
               = map (fun p => Post_card (post_json (populate (users w) p) p))
                     (firstn 20 (Post.sort_desc (posts w)))).
  { unfold HomePage_effect, HomePage_cards, get_post. simpl.
    now rewrite map_map. }
  split; [exact H1|].
  rewrite H1, map_map. apply map_ext. intros p. apply Post_card_to.
Qed.

(** X21: a post created with an upload that multer stored under "uploads/"
    shows, on its card, the picture at "http://localhost:4000/" followed by
    the path the file was renamed to. *)
Theorem created_post_picture (env : Env) (w : World) (req : Request) (r : Response)
    (f : File) (stored : string) :
  response (post_post secret env w req) = Some r ->
  status r = 200 ->
  file req = Some f ->
  path f = ("uploads/" ++ stored)%string ->
  img_src (Post_card (sent r)) = ("http://localhost:4000/" ++ newPath_of f)%string /\
  img_alt (Post_card (sent r)) = "Post cover".
Proof.
  intros Hr Hs Hf Hp.
  destruct (post_post_success secret env w req r Hr Hs)
    as (token & info & a & t & s0 & c & _ & _ & _ & _ & _ & Hj & _).
  cbv zeta in Hj. rewrite Hf in Hj. simpl in Hj. subst r.
  match goal with
  | |- context [post_json ?au ?p] =>
      destruct (property_post_json au p) as (_ & _ & _ & Hc & _)
  end.
  unfold Post_card. cbv zeta. unfold json, sent. rewrite Hc. cbn [Post.cover nullable].
  assert (Hcover : ("uploads/" ++ Js.replace "uploads/" "" (newPath_of f))%string
                   = newPath_of f).
  { unfold newPath_of. rewrite Hp, append_assoc. now rewrite replace_prefix. }
  assert (Hne : Js.replace "uploads/" "" (newPath_of f) <> "").
  { unfold newPath_of. rewrite Hp, append_assoc, replace_prefix. simpl.
    destruct stored; discriminate. }
  apply String.eqb_neq in Hne.
  unfold truthy_value, interpolate. rewrite Hne. simpl.
  rewrite <- Hcover at 2. auto.
Qed.

(** ** Sessions *)

(** X22: logging in through the form with the name of a stored user and a
    password [bcrypt.compare] accepts (the token being signed) takes the
    page to "/", raises no alert, leaves the server as it was, and makes
    the header greet the user by that name; the browser then holds the
    token, and a page loaded afresh with it, whatever the server has stored
    by then, greets the same name after the effect of UserContextProvider. *)
Theorem login_then_reload (env : Env) (w : World) (n pw tok : string) (pg : Page)
    (u : User.doc) :
  User.findOne (Some (JString n)) (users w) = Ok (Some u) ->
  bcrypt_compare pw (User.password u) = true ->
  jwt_sign (mkClaim (toString (User._id u)) (User.userName u)) secret (seconds env)
  = Ok tok ->
  n <> "" ->
  let pg' := fst (login secret env w n pw pg) in
  snd (login secret env w n pw pg) = w /\
  location pg' = "/" /\
  alerts pg' = alerts pg /\
  jar pg' = Some tok /\
  Header_nav pg' = Member (JString n) /\
  forall (w'' : World) (at_ : string),
    Header_nav (UserContextProvider_effect secret w'' (load at_ (jar pg')))
    = Member (JString n).
Proof.
  intros Hu Hc Hs Hn.
  assert (Hname : User.userName u = n).
  { destruct (findOne_found _ _ _ Hu) as (v & [= <-] & _ & _ & Hm).
    rewrite matches_string in Hm. now apply String.eqb_eq. }
  assert (Hne : String.eqb n "" = false) by now apply String.eqb_neq.
  unfold login, post_login. cbn [body body_userName body_password].
  rewrite Hu, Hc, Hs. simpl.
  unfold Header_nav. simpl. rewrite Hne. simpl.
  repeat split.
  intros w'' at_. unfold UserContextProvider_effect, load. cbn [jar].
  rewrite (get_profile_verified secret w'' _ tok
             (mkInfo (mkClaim (toString (User._id u)) (User.userName u)) (seconds env)));
    [|reflexivity|now apply jwt_verify_sign].
  simpl. now rewrite Hname, Hne.
Qed.

(** X23: logging in through the form with a name no stored user has, or
    with a password [bcrypt.compare] refuses, raises the alert
    "Login failed" and changes nothing else: not the user shown, not the
    route, not the cookie, not the server. *)
Theorem login_refused (env : Env) (w : World) (n pw : string) (pg : Page) :
  User.findOne (Some (JString n)) (users w) = Ok None \/
  (exists u, User.findOne (Some (JString n)) (users w) = Ok (Some u) /\
             bcrypt_compare pw (User.password u) = false) ->
  login secret env w n pw pg
  = (mkPage (userInfo pg) (home_posts pg) (location pg)
            ("Login failed" :: alerts pg) (jar pg), w).
Proof.
  intros [Hu | (u & Hu & Hc)]; unfold login, post_login;
    cbn [body body_userName body_password]; rewrite Hu; try rewrite Hc; reflexivity.
Qed.

(** X24: logging out through the header empties [userInfo], goes to
    "/login", leaves the server as it was and leaves the browser with an
    empty [token] cookie; the header then offers to log in, and so does a
    page loaded afresh afterwards, whatever the server has stored. *)
Theorem logout_then_reload (w w'' : World) (pg : Page) (at_ : string) :
  let pg' := fst (logout w pg) in
  snd (logout w pg) = w /\
  userInfo pg' = JNull /\
  location pg' = "/login" /\
  jar pg' = Some "" /\
  Header_nav pg' = Guest /\
  Header_nav (UserContextProvider_effect secret w'' (load at_ (jar pg'))) = Guest.
Proof.
  repeat split.
Qed.

(** X25: logging out does not revoke the token: a request that still
    carries the token the browser held before is answered by GET /profile
    with the payload of the token, after the logout as before. *)
Theorem logout_keeps_token_valid (w : World) (pg : Page) (tok : string) (info : Info)
    (req : Request) :
  jar pg = Some tok ->
  jwt_verify tok secret = Ok info ->
  cookies_token req = Some tok ->
  jar (fst (logout w pg)) = Some "" /\
  get_profile secret (snd (logout w pg)) req
  = respond (snd (logout w pg)) (json (info_json info)).
Proof.
  intros _ Hv Hc. split; [reflexivity|].
  now apply get_profile_verified with (token := tok).
Qed.

End ClientProperties.

(** ** The sample runtime and the sample hash *)

#[export] Instance sample_runtime : JsRuntime :=
  {| String_of := Sample.text; format_date := Sample.date |}.

Lemma sample_compare_hash (pw slt : string) :
  Sample.compare pw (Sample.hash pw slt) = true.
Proof.
  unfold Sample.compare, Sample.hash.
  rewrite length_append. simpl String.length.
  replace (String.length slt + S (String.length pw) - (String.length pw + 1))
    with (String.length slt) by lia.
  rewrite substring_append.
  replace (String.length pw + 1) with (String.length ("$" ++ pw)%string)
    by (simpl; lia).
  rewrite substring_all. apply String.eqb_refl.
Qed.

(** ** The further statements on the run *)

Lemma serve_userName_unique_run :
  NoDup (map User.userName (users (serve secret history blog))).
Proof.
  apply (serve_userName_unique secret history blog).
  simpl. repeat constructor; simpl; intuition discriminate.
Defined.

Lemma serve_posts_authored_run :
  Forall (fun p => Post.author p <> None) (posts (serve secret history blog)).
Proof.
  apply (serve_posts_authored secret history blog).
  simpl. repeat constructor. discriminate.
Defined.

Lemma serve_users_kept_run :
  nth_error (users (serve secret history blog)) 1 = Some bob.
Proof.
  apply (serve_users_kept secret history blog 1 bob). reflexivity.
Defined.

Lemma serve_posts_kept_run :
  exists p',
    nth_error (posts (serve secret history blog)) 0 = Some p' /\
    Post._id p' = Post._id hello /\
    Post.author p' = Post.author hello /\
    Post.createdAt p' = Post.createdAt hello.
Proof.
  apply (serve_posts_kept secret history blog 0 hello). reflexivity.
Defined.

Lemma post_changed_only_by_author_run :
  PUT_post_id = PUT_post_id /\
  castObjectId (params_id (update_by alice)) = Some (Post._id hello) /\
  exists token info a,
    Js.truthy (cookies_token (update_by alice)) = Some token /\
    jwt_verify token secret = Ok info /\
    Post.author hello = Some a /\
    userId (claim info) = toString a.
Proof.
  apply (post_changed_only_by_author secret PUT_post_id env blog (update_by alice)
           0 hello edited).
  - reflexivity.
  - reflexivity.
  - discriminate.
Defined.

Lemma post_login_sound_run :
  status (mkResponse 200 (Some (mkCookie "token" (token_of alice) false None))
            (user_json alice_id (Some "alice"))) = 200 /\
  exists u pw v,
    body_userName (body login_alice) = Some v /\
    filters v = true /\
    User.findOne (Some v) (users blog) = Ok (Some u) /\
    In u (users blog) /\
    matches v (User.userName u) = true /\
    body_password (body login_alice) = Some (JString pw) /\
    bcrypt_compare pw (User.password u) = true /\
    (forall n, v = JString n -> User.userName u = n).
Proof.
  apply (post_login_sound secret env blog login_alice
           (mkResponse 200 (Some (mkCookie "token" (token_of alice) false None))
              (user_json alice_id (Some "alice")))
           (mkCookie "token" (token_of alice) false None)).
  - reflexivity.
  - reflexivity.
Defined.

Lemma post_login_wrong_password_run :
  post_login secret env blog login_bob_guessing
  = respond blog (mkResponse 400 None (error_json "Invalid password")).
Proof.
  apply (post_login_wrong_password secret env blog login_bob_guessing bob "guess").
  - reflexivity.
  - reflexivity.
  - reflexivity.
Defined.

Lemma register_then_login_run :
  let w' := serve secret (tl history) (world (post_register secret env blog register_carol)) in
  post_login secret later w' register_carol
  = respond w'
      (mkResponse 200 (Some (mkCookie "token" (token_later carol) false None))
         (sent (mkResponse 200
                  (Some (mkCookie "token" (token_of carol) true (Some "strict")))
                  (user_json (newObjectId env) (Some "carol"))))).
Proof.
  apply (register_then_login secret env later blog register_carol
           (mkResponse 200 (Some (mkCookie "token" (token_of carol) true (Some "strict")))
              (user_json (newObjectId env) (Some "carol")))
           (tl history) "carol" (token_later carol)).
  - exact sample_compare_hash.
  - reflexivity.
  - reflexivity.
  - reflexivity.
  - reflexivity.
Defined.

Lemma post_post_created_run :
  exists token info postDoc,
    Js.truthy (cookies_token (create_by alice)) = Some token /\
    jwt_verify token secret = Ok info /\
    posts (world (post_post secret env blog (create_by alice))) = posts blog ++ [postDoc] /\
    json (post_json (plain_author created) created)
    = json (post_json (plain_author postDoc) postDoc) /\
    Post._id postDoc = newObjectId env /\
    castObjectId (userId (claim info)) = Post.author postDoc /\
    cast_path (body_title (body (create_by alice))) = Ok (Post.title postDoc) /\
    cast_path (body_summary (body (create_by alice))) = Ok (Post.summary postDoc) /\
    cast_path (body_content (body (create_by alice))) = Ok (Post.content postDoc) /\
    Post.cover postDoc
    = option_map (fun f => Js.replace "uploads/" "" (newPath_of f))
                 (file (create_by alice)) /\
    Post.createdAt postDoc = now env /\
    Post.updatedAt postDoc = now env.
Proof.
  apply (post_post_created secret env blog (create_by alice)
           (json (post_json (plain_author created) created))).
  - reflexivity.
  - reflexivity.
Defined.

Lemma post_post_then_get_post_id_run :
  let w' := world (post_post secret env blog (create_by alice)) in
  exists postDoc,
    json (post_json (plain_author created) created)
    = json (post_json (plain_author postDoc) postDoc) /\
    get_post_id w' read_created
    = respond w' (json (post_json (populate (users w') postDoc) postDoc)).
Proof.
  apply (post_post_then_get_post_id secret env blog (create_by alice) read_created
           (json (post_json (plain_author created) created))).
  - reflexivity.
  - reflexivity.
  - reflexivity.
  - discriminate.
  - reflexivity.
Defined.

Lemma post_post_listed_first_run :
  let w' := world (post_post secret env blog (create_by alice)) in
  exists postDoc,
    json (post_json (plain_author created) created)
    = json (post_json (plain_author postDoc) postDoc) /\
    get_post w' read_created
    = respond w'
        (json (JArray
           (post_json (populate (users w') postDoc) postDoc
            :: map (fun p => post_json (populate (users w') p) p)
                   (firstn 19 (Post.sort_desc (posts blog)))))).
Proof.
  apply (post_post_listed_first secret env blog (create_by alice) read_created
           (json (post_json (plain_author created) created))).
  - reflexivity.
  - reflexivity.
  - repeat constructor.
Defined.

Lemma put_post_id_cover_run :
  exists saved,
    Post.findById (params_id (update_with_picture_by alice))
      (posts (world (put_post_id secret env blog (update_with_picture_by alice))))
    = Ok (Some saved) /\
    Post.cover saved
    = match file (update_with_picture_by alice) with
      | Some f => Some (Js.replace "uploads/" "" (newPath_of f))
      | None => Post.cover hello
      end /\
    Post.file saved = Post.file hello.
Proof.
  apply (put_post_id_cover secret env blog (update_with_picture_by alice)
           (token_of alice) (info_of alice) hello alice_id
           (Some "Hello again") (Some "Edited") (Some "<p>Hi!</p>")).
  - intros f [= <-]. reflexivity.
  - reflexivity.
  - reflexivity.
  - reflexivity.
  - reflexivity.
  - reflexivity.
  - reflexivity.
Defined.

Lemma creator_can_update_run :
  let w' := world (post_post secret env blog (create_by alice)) in
  exists saved,
    response (put_post_id secret later w' (update_created_by alice))
    = Some (json (post_json (plain_author saved) saved)) /\
    Post._id saved = newObjectId env /\
    Post.title saved = Some "Third time" /\
    Post.author saved = Some alice_id.
Proof.
  apply (creator_can_update secret env later blog (create_by alice)
           (update_created_by alice)
           (json (post_json (plain_author created) created))
           (token_of alice) (info_of alice) alice_id
           (Some "Third time") None None).
  - reflexivity.
  - reflexivity.
  - reflexivity.
  - reflexivity.
  - reflexivity.
  - reflexivity.
  - reflexivity.
  - reflexivity.
  - reflexivity.
  - intros f Hf. discriminate Hf.
  - reflexivity.
Defined.

Lemma put_post_id_not_found_run :
  response (put_post_id secret env blog (update_unknown_by alice))
  = Some (mkResponse 404 None (error_json "Post not found")) /\
  users (world (put_post_id secret env blog (update_unknown_by alice))) = users blog /\
  posts (world (put_post_id secret env blog (update_unknown_by alice))) = posts blog.
Proof.
  apply (put_post_id_not_found secret env blog (update_unknown_by alice)
           (token_of alice) (info_of alice)).
  - intros f Hf. discriminate Hf.
  - reflexivity.
  - reflexivity.
  - reflexivity.
Defined.

Lemma cookie_only_from_session_routes_run :
  (POST_logout = POST_register \/ POST_logout = POST_login \/ POST_logout = POST_logout) /\
  name (mkCookie "token" "" false None) = "token" /\
  status (mkResponse 200 (Some (mkCookie "token" "" false None)) (JString "ok")) = 200.
Proof.
  apply (cookie_only_from_session_routes secret POST_logout env blog (profile_of alice)
           (mkResponse 200 (Some (mkCookie "token" "" false None)) (JString "ok"))
           (mkCookie "token" "" false None)).
  - reflexivity.
  - reflexivity.
Defined.

Lemma reading_routes_write_nothing_run :
  world (handle secret GET_post_id env blog read_unknown) = blog.
Proof.
  apply (reading_routes_write_nothing secret GET_post_id env blog read_unknown).
  right. right. right. right. reflexivity.
Defined.

Lemma cover_of_upload_run :
  ("uploads/" ++ Js.replace "uploads/" "" (newPath_of picture))%string
  = newPath_of picture.
Proof.
  apply (cover_of_upload picture "3f9a"). reflexivity.
Defined.

Lemma created_post_picture_run :
  img_src (Post_card (sent (json (post_json (plain_author created) created))))
  = ("http://localhost:4000/" ++ newPath_of picture)%string /\
  img_alt (Post_card (sent (json (post_json (plain_author created) created))))
  = "Post cover".
Proof.
  apply (created_post_picture secret env blog (create_by alice)
           (json (post_json (plain_author created) created)) picture "3f9a").
  - reflexivity.
  - reflexivity.
  - reflexivity.
  - reflexivity.
Defined.

Lemma login_then_reload_run :
  let pg' := fst (login secret env blog "alice" "wonderland" visitor) in
  snd (login secret env blog "alice" "wonderland" visitor) = blog /\
  location pg' = "/" /\
  alerts pg' = alerts visitor /\
  jar pg' = Some (token_of alice) /\
  Header_nav pg' = Member (JString "alice") /\
  forall (w'' : World) (at_ : string),
    Header_nav (UserContextProvider_effect secret w'' (load at_ (jar pg')))
    = Member (JString "alice").
Proof.
  apply (login_then_reload secret env blog "alice" "wonderland" (token_of alice)
           visitor alice).
  - reflexivity.
  - reflexivity.
  - reflexivity.
  - discriminate.
Defined.

Lemma login_refused_run :
  login secret env blog "bob" "guess" visitor
  = (mkPage (userInfo visitor) (home_posts visitor) (location visitor)
            ("Login failed" :: alerts visitor) (jar visitor), blog).
Proof.
  apply (login_refused secret env blog "bob" "guess" visitor).
  right. exists bob. split; reflexivity.
Defined.

Lemma logout_keeps_token_valid_run :
  jar (fst (logout blog member)) = Some "" /\
  get_profile secret (snd (logout blog member)) (profile_of alice)
  = respond (snd (logout blog member)) (json (info_json (info_of alice))).
Proof.
  apply (logout_keeps_token_valid secret blog member (token_of alice) (info_of alice)
           (profile_of alice)).
  - reflexivity.
  - reflexivity.
  - reflexivity.
Defined.
